(** * UAT automation engine: validators, test runner and summary

    A shallow embedding of [uat_automation.py]: the result data model, the
    seven validators, the dispatching test runner and the summary
    aggregation, followed by the properties checked against them.

    Conventions of the embedding.
    - Values that travel through suite declarations and [details] mappings
      are JSON-shaped Python values ([pyval]): [None], booleans, integers,
      strings, lists and string-keyed dicts.  Binary64 numbers are not part
      of [pyval].
    - A Python [str] is a [string]; [str.lower] acts on the ASCII letters.
    - A dict is an association list in insertion order, looked up by first
      match.
    - Python exceptions are values of type [exn]; a computation either
      returns or raises ([outcome]).
    - The filesystem, the media probe, the JSON decoder, the hashing
      library and the wall clock are read through a [world] record.
    - Wall-clock seconds are rationals; the n-th reading of the clock is
      supplied by the world and every reading advances a tick counter.
    - Terminal printing and logging are not modelled.
    - The JSON text of a report is written and read by a model of the
      encoder and decoder of Python's standard library; how a float is
      written and read is a parameter ([float_format]). *)

From Stdlib Require Import List String Ascii ZArith QArith Bool Lia Arith.
From Stdlib Require Import DecimalString.
From Stdlib Require DecimalFacts DecimalPos DecimalZ.
Import ListNotations.

#[local] Close Scope Q_scope.
#[local] Open Scope Z_scope.
#[local] Open Scope nat_scope.
#[local] Open Scope list_scope.
#[local] Open Scope string_scope.

(** ** Python values *)

Set Warnings "-register-all".

Inductive pyval : Type :=
| VNone : pyval
| VBool : bool -> pyval
| VInt : Z -> pyval
| VStr : string -> pyval
| VList : list pyval -> pyval
| VDict : list (string * pyval) -> pyval.

Definition pydict := list (string * pyval).

(** ** Exceptions *)

Inductive exn_class : Type :=
| TypeError
| AttributeError
| KeyError
| ValueError
| JSONDecodeError
| UnicodeDecodeError
| OSError
| FileNotFoundError
| PermissionError
| TimeoutExpired
| RuntimeError.

Record exn : Type := mkExn { exn_type : exn_class; exn_str : string }.

(** [isinstance(e, cls)] for the classes the except clauses name. *)
Definition is_FileNotFoundError (e : exn) : bool :=
  match exn_type e with FileNotFoundError => true | _ => false end.

Definition is_TimeoutExpired (e : exn) : bool :=
  match exn_type e with TimeoutExpired => true | _ => false end.

Definition is_JSONDecodeError (e : exn) : bool :=
  match exn_type e with JSONDecodeError => true | _ => false end.

Inductive outcome (A : Type) : Type :=
| Ret : A -> outcome A
| Raise : exn -> outcome A.

Arguments Ret {A} _.
Arguments Raise {A} _.

Definition obind {A B : Type} (o : outcome A) (k : A -> outcome B) : outcome B :=
  match o with
  | Ret a => k a
  | Raise e => Raise e
  end.

(** ** Strings *)

Definition ascii_lower (c : ascii) : ascii :=
  let n := nat_of_ascii c in
  if (65 <=? n)%nat && (n <=? 90)%nat then ascii_of_nat (n + 32) else c.

(** [str.lower()] *)
Fixpoint str_lower (s : string) : string :=
  match s with
  | EmptyString => EmptyString
  | String c s' => String (ascii_lower c) (str_lower s')
  end.

(** [s.startswith('.')] *)
Definition startswith_dot (s : string) : bool :=
  match s with
  | String c _ => Ascii.eqb c "."
  | EmptyString => false
  end.

(** [needle in haystack] on two strings *)
Fixpoint str_contains (needle haystack : string) : bool :=
  String.prefix needle haystack ||
  match haystack with
  | EmptyString => false
  | String _ rest => str_contains needle rest
  end.

(** [s.split(sep)] for a one-character separator *)
Fixpoint str_split (sep : ascii) (s : string) : list string :=
  match s with
  | EmptyString => [EmptyString]
  | String c s' =>
      if Ascii.eqb c sep then EmptyString :: str_split sep s'
      else match str_split sep s' with
           | [] => [String c EmptyString]
           | x :: xs => String c x :: xs
           end
  end.

(** [s.rfind(c)], [None] standing for -1 *)
Fixpoint str_rfind (c : ascii) (s : string) : option nat :=
  match s with
  | EmptyString => None
  | String a s' =>
      match str_rfind c s' with
      | Some i => Some (S i)
      | None => if Ascii.eqb a c then Some 0%nat else None
      end
  end.

(** [s[i:]] *)
Fixpoint str_drop (i : nat) (s : string) : string :=
  match i, s with
  | O, _ => s
  | S i', String _ s' => str_drop i' s'
  | S _, EmptyString => EmptyString
  end.

(** ** pathlib (POSIX flavour) *)

(** The components of a path: the pieces between slashes, with empty
    pieces and single dots dropped. *)
Definition path_component (x : string) : bool :=
  negb (String.eqb x "") && negb (String.eqb x ".").

Definition path_parts (p : string) : list string :=
  filter path_component (str_split "/" p).

(** [Path(p).name] *)
Definition path_name (p : string) : string :=
  last (path_parts p) "".

(** [Path(p).suffix]: the final component from its last dot on, when that
    dot is neither its first nor its last character. *)
Definition path_suffix (p : string) : string :=
  let name := path_name p in
  match str_rfind "." name with
  | Some i =>
      if (0 <? i)%nat && (i <? String.length name - 1)%nat
      then str_drop i name else ""
  | None => ""
  end.

(** ** Printing of values *)

Definition Z_to_string (z : Z) : string := NilZero.string_of_int (Z.to_int z).

Definition nat_to_string (n : nat) : string := Z_to_string (Z.of_nat n).

(** Digits grouped in threes from the right, as the [','] format does. *)
Fixpoint group3 (rev_digits : list ascii) (k : nat) : list ascii :=
  match rev_digits with
  | [] => []
  | d :: rest =>
      match k, rest with
      | 2%nat, _ :: _ => d :: ","%char :: group3 rest 0
      | _, _ => d :: group3 rest (S k)
      end
  end.

(** [format(z, ',')] *)
Definition format_thousands (z : Z) : string :=
  let digits := list_ascii_of_string (Z_to_string (Z.abs z)) in
  let grouped := string_of_list_ascii (rev (group3 (rev digits) 0)) in
  if (z <? 0)%Z then "-" ++ grouped else grouped.

Definition hex_digit (n : nat) : ascii :=
  nth n (list_ascii_of_string "0123456789abcdef") "f"%char.

(** One character of [repr(str)] inside the quote [q]. *)
Definition repr_char (q c : ascii) : string :=
  let n := nat_of_ascii c in
  if Ascii.eqb c "\" then "\\"
  else if Ascii.eqb c q then String "\" (String c "")
  else if (n =? 10)%nat then "\n"
  else if (n =? 13)%nat then "\r"
  else if (n =? 9)%nat then "\t"
  else if (n <? 32)%nat || (n =? 127)%nat
       then String "\" (String "x" (String (hex_digit (n / 16)) (String (hex_digit (n mod 16)) "")))
  else String c "".

Fixpoint repr_chars (q : ascii) (s : string) : string :=
  match s with
  | EmptyString => ""
  | String c s' => repr_char q c ++ repr_chars q s'
  end.

Definition has_char (c : ascii) (s : string) : bool :=
  match str_rfind c s with Some _ => true | None => false end.

(** [repr(s)] of a string: single quotes unless the text holds a single
    quote and no double quote. *)
Definition repr_str (s : string) : string :=
  let dq : ascii := ascii_of_nat 34 in
  let q : ascii := if has_char "'" s && negb (has_char dq s) then dq else "'"%char in
  String q (repr_chars q s ++ String q "").

(** [repr(v)] *)
Fixpoint py_repr (v : pyval) : string :=
  match v with
  | VNone => "None"
  | VBool true => "True"
  | VBool false => "False"
  | VInt z => Z_to_string z
  | VStr s => repr_str s
  | VList xs =>
      "[" ++ String.concat ", " (map py_repr xs) ++ "]"
  | VDict kvs =>
      "{" ++ String.concat ", "
               ((fix items (l : list (string * pyval)) : list string :=
                   match l with
                   | [] => []
                   | (k, x) :: l' => (repr_str k ++ ": " ++ py_repr x) :: items l'
                   end) kvs) ++ "}"
  end.

(** [str(v)], what an f-string field prints. *)
Definition py_str (v : pyval) : string :=
  match v with
  | VStr s => s
  | _ => py_repr v
  end.

(** ** Dynamic operations on values *)

Definition py_type_name (v : pyval) : string :=
  match v with
  | VNone => "NoneType"
  | VBool _ => "bool"
  | VInt _ => "int"
  | VStr _ => "str"
  | VList _ => "list"
  | VDict _ => "dict"
  end.

(** [bool(v)] *)
Definition py_truthy (v : pyval) : bool :=
  match v with
  | VNone => false
  | VBool b => b
  | VInt z => negb (z =? 0)%Z
  | VStr s => negb (String.eqb s "")
  | VList [] => false
  | VList (_ :: _) => true
  | VDict [] => false
  | VDict (_ :: _) => true
  end.

Fixpoint dict_get (k : string) (d : pydict) : option pyval :=
  match d with
  | [] => None
  | (k', v) :: d' => if String.eqb k k' then Some v else dict_get k d'
  end.

(** [d.get(k, default)] on a dict *)
Definition dict_get_default (k : string) (d : pydict) (default : pyval) : pyval :=
  match dict_get k d with
  | Some v => v
  | None => default
  end.

Definition dict_has (k : string) (d : pydict) : bool :=
  match dict_get k d with Some _ => true | None => false end.

(** [a == b]: numbers by value (a boolean counts as 0 or 1), lists
    pointwise, dicts key by key. *)
Fixpoint py_eqb (a b : pyval) {struct a} : bool :=
  match a, b with
  | VNone, VNone => true
  | VBool x, VBool y => Bool.eqb x y
  | VBool x, VInt y => (Z.b2z x =? y)%Z
  | VInt x, VBool y => (x =? Z.b2z y)%Z
  | VInt x, VInt y => (x =? y)%Z
  | VStr x, VStr y => String.eqb x y
  | VList xs, VList ys =>
      (fix all2 (l : list pyval) (r : list pyval) {struct l} : bool :=
         match l, r with
         | [], [] => true
         | x :: l', y :: r' => py_eqb x y && all2 l' r'
         | _, _ => false
         end) xs ys
  | VDict xs, VDict ys =>
      Nat.eqb (List.length xs) (List.length ys) &&
      (fix sub (l : list (string * pyval)) {struct l} : bool :=
         match l with
         | [] => true
         | (k, x) :: l' =>
             match dict_get k ys with
             | Some y => py_eqb x y
             | None => false
             end && sub l'
         end) xs
  | _, _ => false
  end.

Definition py_hashable (v : pyval) : bool :=
  match v with
  | VList _ | VDict _ => false
  | _ => true
  end.

Definition unhashable (v : pyval) : exn :=
  mkExn TypeError ("unhashable type: '" ++ py_type_name v ++ "'").

Definition no_attribute (v : pyval) (attr : string) : exn :=
  mkExn AttributeError
        ("'" ++ py_type_name v ++ "' object has no attribute '" ++ attr ++ "'").

(** [size >= v] and [size <= v] for an integer [size] *)
Definition py_int_ge (size : Z) (v : pyval) : outcome bool :=
  match v with
  | VInt n => Ret (n <=? size)%Z
  | VBool b => Ret (Z.b2z b <=? size)%Z
  | _ => Raise (mkExn TypeError
                  ("'>=' not supported between instances of 'int' and '"
                     ++ py_type_name v ++ "'"))
  end.

Definition py_int_le (size : Z) (v : pyval) : outcome bool :=
  match v with
  | VInt n => Ret (size <=? n)%Z
  | VBool b => Ret (size <=? Z.b2z b)%Z
  | _ => Raise (mkExn TypeError
                  ("'<=' not supported between instances of 'int' and '"
                     ++ py_type_name v ++ "'"))
  end.

(** [format(v, ',')] *)
Definition py_format_comma (v : pyval) : outcome string :=
  match v with
  | VInt n => Ret (format_thousands n)
  | VBool b => Ret (format_thousands (Z.b2z b))
  | VStr _ => Raise (mkExn ValueError "Cannot specify ',' with 's'.")
  | _ => Raise (mkExn TypeError
                  ("unsupported format string passed to "
                     ++ py_type_name v ++ ".__format__"))
  end.

(** [v.lower()] *)
Definition py_lower (v : pyval) : outcome string :=
  match v with
  | VStr s => Ret (str_lower s)
  | _ => Raise (no_attribute v "lower")
  end.

(** [v.startswith('.')] *)
Definition py_startswith_dot (v : pyval) : outcome bool :=
  match v with
  | VStr s => Ret (startswith_dot s)
  | _ => Raise (no_attribute v "startswith")
  end.

(** [v.get(k, default)] *)
Definition py_get (v : pyval) (k : string) (default : pyval) : outcome pyval :=
  match v with
  | VDict d => Ret (dict_get_default k d default)
  | _ => Raise (no_attribute v "get")
  end.

(** [v[k]] for a string subscript [k] *)
Definition py_getitem (v : pyval) (k : string) : outcome pyval :=
  match v with
  | VDict d =>
      match dict_get k d with
      | Some x => Ret x
      | None => Raise (mkExn KeyError (repr_str k))
      end
  | VList _ => Raise (mkExn TypeError "list indices must be integers or slices, not str")
  | VStr _ => Raise (mkExn TypeError "string indices must be integers, not 'str'")
  | _ => Raise (mkExn TypeError ("'" ++ py_type_name v ++ "' object is not subscriptable"))
  end.

Fixpoint str_chars (s : string) : list pyval :=
  match s with
  | EmptyString => []
  | String c s' => VStr (String c "") :: str_chars s'
  end.

(** The items a [for] loop over [v] visits. *)
Definition py_iter (v : pyval) : outcome (list pyval) :=
  match v with
  | VList xs => Ret xs
  | VStr s => Ret (str_chars s)
  | VDict d => Ret (map (fun kv => VStr (fst kv)) d)
  | _ => Raise (mkExn TypeError ("'" ++ py_type_name v ++ "' object is not iterable"))
  end.

(** [key in data] *)
Definition py_in (key data : pyval) : outcome bool :=
  match data with
  | VDict d =>
      if py_hashable key
      then Ret (match key with VStr k => dict_has k d | _ => false end)
      else Raise (unhashable key)
  | VList xs => Ret (existsb (py_eqb key) xs)
  | VStr s =>
      match key with
      | VStr k => Ret (str_contains k s)
      | _ => Raise (mkExn TypeError
                      ("'in <string>' requires string as left operand, not "
                         ++ py_type_name key))
      end
  | _ => Raise (mkExn TypeError
                  ("argument of type '" ++ py_type_name data ++ "' is not iterable"))
  end.

(** [Path(v)]: only a string is accepted. *)
Definition Path (v : pyval) : outcome string :=
  match v with
  | VStr s => Ret s
  | _ => Raise (mkExn TypeError
                  ("expected str, bytes or os.PathLike object, not "
                     ++ py_type_name v))
  end.

(** What [open(v)] refers to: a path, or a file descriptor when [v] is an
    integer. *)
Inductive file_ref : Type :=
| PathRef : string -> file_ref
| FdRef : Z -> file_ref.

Definition open_ref (v : pyval) : outcome file_ref :=
  match v with
  | VStr s => Ret (PathRef s)
  | VInt n => Ret (FdRef n)
  | VBool b => Ret (FdRef (Z.b2z b))
  | _ => Raise (mkExn TypeError
                  ("expected str, bytes or os.PathLike object, not "
                     ++ py_type_name v))
  end.

(** ** The environment *)

(** What [subprocess.run(..., capture_output=True, text=True)] hands back. *)
Record CompletedProcess : Type :=
  mkCompleted { returncode : Z; stdout : string }.

Record world : Type := mkWorld {
  (** [Path(p).exists()] *)
  path_exists : string -> bool;
  (** [Path(p).stat().st_size] *)
  stat_size : string -> outcome Z;
  (** [with open(path, 'r') as f: json.load(f)] *)
  load_json_file : file_ref -> outcome pyval;
  (** [hashlib.new(algorithm)] fed the whole file, then [hexdigest()] *)
  file_hexdigest : string -> file_ref -> outcome string;
  (** [subprocess.run(['ffprobe', '-v', 'quiet', '-print_format', 'json',
      '-show_streams', path], capture_output=True, text=True, timeout=30)] *)
  run_ffprobe : string -> outcome CompletedProcess;
  (** [json.loads(text)] *)
  json_loads : string -> outcome pyval;
  (** the n-th reading of the clock, as [time.time()] and as
      [datetime.now().isoformat()] *)
  time_time : nat -> Q;
  now_isoformat : nat -> string
}.

(** ** Result model *)

Inductive TestStatus : Type :=
| PENDING
| RUNNING
| PASSED
| FAILED
| SKIPPED
| ERROR.

(** [status.value] *)
Definition status_value (s : TestStatus) : string :=
  match s with
  | PENDING => "pending"
  | RUNNING => "running"
  | PASSED => "passed"
  | FAILED => "failed"
  | SKIPPED => "skipped"
  | ERROR => "error"
  end.

Definition TestStatus_eqb (a b : TestStatus) : bool :=
  match a, b with
  | PENDING, PENDING | RUNNING, RUNNING | PASSED, PASSED
  | FAILED, FAILED | SKIPPED, SKIPPED | ERROR, ERROR => true
  | _, _ => false
  end.

Record TestResult : Type := mkTestResult {
  name : pyval;
  status : TestStatus;
  duration : Q;
  message : string;
  details : pydict;
  timestamp : string
}.

Record TestSuite : Type := mkTestSuite {
  suite_name : string;
  tests : list pydict;
  description : string;
  created : string
}.

(** ** Computations: clock ticks and exceptions *)

(** A computation starts at a tick count, returns or raises, and leaves
    the tick count it reached. *)
Definition M (A : Type) : Type := nat -> outcome A * nat.

Definition ret {A : Type} (a : A) : M A := fun t => (Ret a, t).

Definition raise {A : Type} (e : exn) : M A := fun t => (Raise e, t).

Definition lift {A : Type} (o : outcome A) : M A := fun t => (o, t).

Definition bind {A B : Type} (c : M A) (k : A -> M B) : M B :=
  fun t =>
    match c t with
    | (Ret a, t') => k a t'
    | (Raise e, t') => (Raise e, t')
    end.

(** [try: body except Exception as e: handler e] *)
Definition try_except {A : Type} (body : M A) (handler : exn -> M A) : M A :=
  fun t =>
    match body t with
    | (Ret a, t') => (Ret a, t')
    | (Raise e, t') => handler e t'
    end.

Declare Scope py_scope.
Delimit Scope py_scope with py.
Notation "x <- c ;; k" := (bind c (fun x => k))
  (at level 61, c at next level, right associativity) : py_scope.
#[local] Open Scope py_scope.

Section Engine.

Variable w : world.

(** [time.time()] *)
Definition time_now : M Q := fun t => (Ret (time_time w t), S t).

(** [datetime.now().isoformat()] *)
Definition datetime_now_isoformat : M string :=
  fun t => (Ret (now_isoformat w t), S t).

(** [TestResult(name=..., status=..., duration=..., message=...,
    details=...)] followed by [__post_init__]: the timestamp is taken from
    the clock and absent details become the empty mapping. *)
Definition TestResult_new (name : pyval) (status : TestStatus) (duration : Q)
    (message : string) (details : option pydict) : M TestResult :=
  timestamp <- datetime_now_isoformat ;;
  ret (mkTestResult name status duration message
         (match details with Some d => d | None => [] end) timestamp).

(** *** Validators *)

Definition validate_file_exists (path : pyval) : M TestResult :=
  start <- time_now ;;
  p <- lift (Path path) ;;
  let exists_ := path_exists w p in
  stop <- time_now ;;
  let duration := (stop - start)%Q in
  TestResult_new (VStr "File Exists Check")
    (if exists_ then PASSED else FAILED)
    duration
    ("File " ++ (if exists_ then "found" else "not found") ++ ": " ++ py_str path)
    (Some [("path", path); ("exists", VBool exists_)]).

Definition validate_file_format (path expected_ext : pyval) : M TestResult :=
  start <- time_now ;;
  p <- lift (Path path) ;;
  let actual_ext := str_lower (path_suffix p) in
  expected_ext <- lift (obind (py_startswith_dot expected_ext) (fun dotted =>
                        if dotted then py_lower expected_ext
                        else obind (py_lower expected_ext) (fun lowered =>
                             Ret ("." ++ lowered)))) ;;
  let matches := String.eqb actual_ext expected_ext in
  stop <- time_now ;;
  let duration := (stop - start)%Q in
  TestResult_new (VStr "File Format Check")
    (if matches then PASSED else FAILED)
    duration
    ("Expected " ++ expected_ext ++ ", got " ++ actual_ext)
    (Some [("expected", VStr expected_ext); ("actual", VStr actual_ext)]).

Definition validate_file_size (path min_bytes max_bytes : pyval) : M TestResult :=
  start <- time_now ;;
  try_except
    (p <- lift (Path path) ;;
     size <- lift (stat_size w p) ;;
     above <- lift (py_int_ge size min_bytes) ;;
     in_range <- lift (if above
                       then match max_bytes with
                            | VNone => Ret true
                            | _ => py_int_le size max_bytes
                            end
                       else Ret false) ;;
     stop <- time_now ;;
     min_text <- lift (py_format_comma min_bytes) ;;
     TestResult_new (VStr "File Size Check")
       (if in_range then PASSED else FAILED)
       (stop - start)%Q
       ("Size: " ++ format_thousands size ++ " bytes (min: " ++ min_text
          ++ ", max: "
          ++ (if py_truthy max_bytes then py_str max_bytes else "unlimited")
          ++ ")")
       (Some [("size", VInt size); ("min", min_bytes); ("max", max_bytes)]))
    (fun e =>
       stop <- time_now ;;
       TestResult_new (VStr "File Size Check") ERROR (stop - start)%Q
         (exn_str e) None).

(** [[key for key in keys if key not in data]] *)
Fixpoint missing_keys (keys : list pyval) (data : pyval) : outcome (list pyval) :=
  match keys with
  | [] => Ret []
  | key :: rest =>
      obind (py_in key data) (fun present =>
      obind (missing_keys rest data) (fun tail =>
      Ret (if present then tail else key :: tail)))
  end.

Definition validate_json_schema (path required_keys : pyval) : M TestResult :=
  start <- time_now ;;
  try_except
    (data <- lift (obind (open_ref path) (load_json_file w)) ;;
     keys <- lift (py_iter required_keys) ;;
     missing <- lift (missing_keys keys data) ;;
     let passed := Nat.eqb (List.length missing) 0 in
     stop <- time_now ;;
     let duration := (stop - start)%Q in
     TestResult_new (VStr "JSON Schema Check")
       (if passed then PASSED else FAILED)
       duration
       (if py_truthy (VList missing)
        then "Missing keys: " ++ py_str (VList missing)
        else "All required keys present")
       (Some [("required", required_keys); ("missing", VList missing)]))
    (fun e =>
       if is_JSONDecodeError e
       then stop <- time_now ;;
            TestResult_new (VStr "JSON Schema Check") ERROR (stop - start)%Q
              ("Invalid JSON: " ++ exn_str e) None
       else stop <- time_now ;;
            TestResult_new (VStr "JSON Schema Check") ERROR (stop - start)%Q
              (exn_str e) None).

(** [hashlib.new(algorithm)] wants a string. *)
Definition hash_algorithm (v : pyval) : outcome string :=
  match v with
  | VStr a => Ret a
  | _ => Raise (mkExn TypeError
                  ("name must be a string, not " ++ py_type_name v))
  end.

Definition validate_checksum (path expected_hash algorithm : pyval) : M TestResult :=
  start <- time_now ;;
  try_except
    (alg <- lift (hash_algorithm algorithm) ;;
     f <- lift (open_ref path) ;;
     actual_hash <- lift (file_hexdigest w alg f) ;;
     let matches := py_eqb (VStr actual_hash) expected_hash in
     stop <- time_now ;;
     let duration := (stop - start)%Q in
     TestResult_new (VStr "Checksum Validation")
       (if matches then PASSED else FAILED)
       duration
       ("Hash " ++ (if matches then "matches" else "mismatch"))
       (Some [("expected", expected_hash); ("actual", VStr actual_hash);
              ("algorithm", algorithm)]))
    (fun e =>
       stop <- time_now ;;
       TestResult_new (VStr "Checksum Validation") ERROR (stop - start)%Q
         (exn_str e) None).

(** The argument vector of the probe takes a string path. *)
Definition probe (path : pyval) : outcome CompletedProcess :=
  obind (Path path) (run_ffprobe w).

(** [next((s for s in streams if s['codec_type'] == 'video'), None)] *)
Fixpoint first_video (streams : list pyval) : outcome pyval :=
  match streams with
  | [] => Ret VNone
  | s :: rest =>
      obind (py_getitem s "codec_type") (fun codec_type =>
      if py_eqb codec_type (VStr "video") then Ret s else first_video rest)
  end.

(** [next((s for s in data.get('streams', []) if ...), None)] *)
Definition find_video_stream (data : pyval) : outcome pyval :=
  obind (py_get data "streams" (VList [])) (fun streams =>
  obind (py_iter streams) first_video).

Definition validate_video_codec (path expected_codec : pyval) : M TestResult :=
  start <- time_now ;;
  try_except
    (result <- lift (probe path) ;;
     if negb (returncode result =? 0)%Z
     then stop <- time_now ;;
          TestResult_new (VStr "Video Codec Check") ERROR (stop - start)%Q
            "ffprobe failed - is FFmpeg installed?" None
     else
       data <- lift (json_loads w (stdout result)) ;;
       video_stream <- lift (find_video_stream data) ;;
       if negb (py_truthy video_stream)
       then stop <- time_now ;;
            TestResult_new (VStr "Video Codec Check") FAILED (stop - start)%Q
              "No video stream found" None
       else
         codec <- lift (py_get video_stream "codec_name" (VStr "unknown")) ;;
         if py_truthy expected_codec
         then
           codec_lower <- lift (py_lower codec) ;;
           expected_lower <- lift (py_lower expected_codec) ;;
           let matches := String.eqb codec_lower expected_lower in
           stop <- time_now ;;
           TestResult_new (VStr "Video Codec Check")
             (if matches then PASSED else FAILED)
             (stop - start)%Q
             ("Codec: " ++ py_str codec ++ " (expected: "
                ++ py_str expected_codec ++ ")")
             (Some [("codec", codec); ("expected", expected_codec)])
         else
           stop <- time_now ;;
           TestResult_new (VStr "Video Codec Check") PASSED (stop - start)%Q
             ("Codec detected: " ++ py_str codec)
             (Some [("codec", codec)]))
    (fun e =>
       if is_TimeoutExpired e
       then stop <- time_now ;;
            TestResult_new (VStr "Video Codec Check") ERROR (stop - start)%Q
              "ffprobe timed out" None
       else if is_FileNotFoundError e
       then stop <- time_now ;;
            TestResult_new (VStr "Video Codec Check") SKIPPED (stop - start)%Q
              "ffprobe not found - skipping codec check" None
       else stop <- time_now ;;
            TestResult_new (VStr "Video Codec Check") ERROR (stop - start)%Q
              (exn_str e) None).

Definition validate_resolution (path expected_width expected_height : pyval)
  : M TestResult :=
  start <- time_now ;;
  try_except
    (result <- lift (probe path) ;;
     data <- lift (json_loads w (stdout result)) ;;
     video_stream <- lift (find_video_stream data) ;;
     if negb (py_truthy video_stream)
     then stop <- time_now ;;
          TestResult_new (VStr "Resolution Check") FAILED (stop - start)%Q
            "No video stream found" None
     else
       width <- lift (py_get video_stream "width" VNone) ;;
       height <- lift (py_get video_stream "height" VNone) ;;
       let width_ok :=
         match expected_width with
         | VNone => true
         | _ => py_eqb width expected_width
         end in
       let height_ok :=
         match expected_height with
         | VNone => true
         | _ => py_eqb height expected_height
         end in
       stop <- time_now ;;
       TestResult_new (VStr "Resolution Check")
         (if width_ok && height_ok then PASSED else FAILED)
         (stop - start)%Q
         ("Resolution: " ++ py_str width ++ "x" ++ py_str height)
         (Some [("width", width); ("height", height);
                ("expected_width", expected_width);
                ("expected_height", expected_height)]))
    (fun e =>
       if is_FileNotFoundError e
       then stop <- time_now ;;
            TestResult_new (VStr "Resolution Check") SKIPPED (stop - start)%Q
              "ffprobe not found - skipping resolution check" None
       else stop <- time_now ;;
            TestResult_new (VStr "Resolution Check") ERROR (stop - start)%Q
              (exn_str e) None).


(** *** Keyword-argument calls *)

(** Calling a validator with the [params] mapping unpacked as keyword
    arguments binds the keys of [params] to the parameters of the
    validator: a key that names no parameter, or a parameter without
    default that no key supplies, is a [TypeError] raised by the call
    itself. *)
Definition check_keywords (fname : string) (allowed : list string)
    (params : pydict) : outcome unit :=
  match find (fun kv => negb (existsb (String.eqb (fst kv)) allowed)) params with
  | Some kv =>
      Raise (mkExn TypeError
               (fname ++ "() got an unexpected keyword argument '"
                  ++ fst kv ++ "'"))
  | None => Ret tt
  end.

Definition required_arg (fname k : string) (params : pydict) : outcome pyval :=
  match dict_get k params with
  | Some v => Ret v
  | None =>
      Raise (mkExn TypeError
               (fname ++ "() missing 1 required positional argument: '"
                  ++ k ++ "'"))
  end.

Definition call_validate_file_exists (params : pydict) : M TestResult :=
  _ <- lift (check_keywords "validate_file_exists" ["path"] params) ;;
  path <- lift (required_arg "validate_file_exists" "path" params) ;;
  validate_file_exists path.

Definition call_validate_file_format (params : pydict) : M TestResult :=
  _ <- lift (check_keywords "validate_file_format"
               ["path"; "expected_ext"] params) ;;
  path <- lift (required_arg "validate_file_format" "path" params) ;;
  expected_ext <- lift (required_arg "validate_file_format" "expected_ext" params) ;;
  validate_file_format path expected_ext.

Definition call_validate_file_size (params : pydict) : M TestResult :=
  _ <- lift (check_keywords "validate_file_size"
               ["path"; "min_bytes"; "max_bytes"] params) ;;
  path <- lift (required_arg "validate_file_size" "path" params) ;;
  validate_file_size path
    (dict_get_default "min_bytes" params (VInt 0))
    (dict_get_default "max_bytes" params VNone).

Definition call_validate_json_schema (params : pydict) : M TestResult :=
  _ <- lift (check_keywords "validate_json_schema"
               ["path"; "required_keys"] params) ;;
  path <- lift (required_arg "validate_json_schema" "path" params) ;;
  required_keys <- lift (required_arg "validate_json_schema" "required_keys" params) ;;
  validate_json_schema path required_keys.

Definition call_validate_checksum (params : pydict) : M TestResult :=
  _ <- lift (check_keywords "validate_checksum"
               ["path"; "expected_hash"; "algorithm"] params) ;;
  path <- lift (required_arg "validate_checksum" "path" params) ;;
  expected_hash <- lift (required_arg "validate_checksum" "expected_hash" params) ;;
  validate_checksum path expected_hash
    (dict_get_default "algorithm" params (VStr "md5")).

Definition call_validate_video_codec (params : pydict) : M TestResult :=
  _ <- lift (check_keywords "validate_video_codec"
               ["path"; "expected_codec"] params) ;;
  path <- lift (required_arg "validate_video_codec" "path" params) ;;
  validate_video_codec path (dict_get_default "expected_codec" params VNone).

Definition call_validate_resolution (params : pydict) : M TestResult :=
  _ <- lift (check_keywords "validate_resolution"
               ["path"; "expected_width"; "expected_height"] params) ;;
  path <- lift (required_arg "validate_resolution" "path" params) ;;
  validate_resolution path
    (dict_get_default "expected_width" params VNone)
    (dict_get_default "expected_height" params VNone).

(** *** Test runner *)

Definition validator_map : list (string * (pydict -> M TestResult)) :=
  [ ("file_exists", call_validate_file_exists);
    ("file_format", call_validate_file_format);
    ("file_size", call_validate_file_size);
    ("json_schema", call_validate_json_schema);
    ("checksum", call_validate_checksum);
    ("video_codec", call_validate_video_codec);
    ("resolution", call_validate_resolution) ].

Fixpoint registry_find (k : string) (m : list (string * (pydict -> M TestResult)))
  : option (pydict -> M TestResult) :=
  match m with
  | [] => None
  | (k', v) :: m' => if String.eqb k k' then Some v else registry_find k m'
  end.

(** [validator_map.get(test_type)]: the key has to be hashable, and only a
    string can equal one of the registered keys. *)
Definition validator_map_get (test_type : pyval)
  : outcome (option (pydict -> M TestResult)) :=
  if py_hashable test_type
  then Ret (match test_type with
            | VStr k => registry_find k validator_map
            | _ => None
            end)
  else Raise (unhashable test_type).

(** The call of [validator] with [params] unpacked as keyword arguments:
    [params] has to be a mapping. *)
Definition call_kwargs (validator : pydict -> M TestResult) (params : pyval)
  : M TestResult :=
  match params with
  | VDict kw => validator kw
  | _ => raise (mkExn TypeError
                  ("argument after ** must be a mapping, not "
                     ++ py_type_name params))
  end.

Definition run_test (test_config : pydict) : M TestResult :=
  let test_type := dict_get_default "type" test_config VNone in
  let params := dict_get_default "params" test_config (VDict []) in
  validator <- lift (validator_map_get test_type) ;;
  match validator with
  | None =>
      TestResult_new (dict_get_default "name" test_config (VStr "Unknown"))
        ERROR 0%Q ("Unknown test type: " ++ py_str test_type) None
  | Some validator => call_kwargs validator params
  end.

End Engine.

(** The fields of a [TestRunner] instance. *)
Record TestRunner : Type := mkTestRunner {
  results : list TestResult;
  start_time : Q;
  end_time : Q
}.

(** [TestRunner()] *)
Definition TestRunner_new : TestRunner := mkTestRunner [] 0%Q 0%Q.

(** [result.name = test_name] *)
Definition set_name (r : TestResult) (n : pyval) : TestResult :=
  mkTestResult n (status r) (duration r) (message r) (details r) (timestamp r).

(** [test_config.get('name', f'Test {i}')] *)
Definition test_name (i : nat) (test_config : pydict) : pyval :=
  dict_get_default "name" test_config (VStr ("Test " ++ nat_to_string i)).

Section Runner.

Variable w : world.

(** The body of [for i, test_config in enumerate(suite.tests, 1)], from
    position [i] on.  The runner is handed back as the loop left it, also
    when a declaration raises. *)
Fixpoint run_suite_loop (self : TestRunner) (i : nat) (tests : list pydict)
    (t : nat) : TestRunner * outcome unit * nat :=
  match tests with
  | [] => (self, Ret tt, t)
  | test_config :: rest =>
      let test_name := test_name i test_config in
      match run_test w test_config t with
      | (Raise e, t') => (self, Raise e, t')
      | (Ret result, t') =>
          let result := set_name result test_name in
          let self := mkTestRunner (results self ++ [result])%list
                        (start_time self) (end_time self) in
          run_suite_loop self (S i) rest t'
      end
  end.

Definition run_suite (self : TestRunner) (suite : TestSuite) (t : nat)
  : TestRunner * outcome (list TestResult) * nat :=
  let self := mkTestRunner [] (start_time self) (end_time self) in
  let self := mkTestRunner (results self) (time_time w t) (end_time self) in
  match run_suite_loop self 1 (tests suite) (S t) with
  | (self, Raise e, t') => (self, Raise e, t')
  | (self, Ret _, t') =>
      let self := mkTestRunner (results self) (start_time self) (time_time w t') in
      (self, Ret (results self), S t')
  end.

End Runner.

(** ** Summary *)

Record Summary : Type := mkSummary {
  total : Z;
  passed : Z;
  failed : Z;
  errors : Z;
  skipped : Z;
  summary_duration : Q;
  success_rate : Q
}.

(** [sum(1 for r in results if r.status == s)] *)
Definition count_status (s : TestStatus) (rs : list TestResult) : Z :=
  fold_left Z.add
    (map (fun _ => 1%Z) (filter (fun r => TestStatus_eqb (status r) s) rs)) 0%Z.

(** [len(results)] *)
Definition len (rs : list TestResult) : Z := Z.of_nat (List.length rs).

(** The success rate is carried as the exact quotient; Python rounds it to
    a binary64 number. *)
Definition get_summary (self : TestRunner) : Summary :=
  let passed := count_status PASSED (results self) in
  let failed := count_status FAILED (results self) in
  let errors := count_status ERROR (results self) in
  let skipped := count_status SKIPPED (results self) in
  mkSummary (len (results self)) passed failed errors skipped
    (end_time self - start_time self)%Q
    (match results self with
     | _ :: _ => (inject_Z passed / inject_Z (len (results self)) * 100)%Q
     | [] => 0%Q
     end).

(** ** JSON values and their text *)

(** Modelled from the spec: the JSON encoding of the report of section 6,
    that is [json.dumps(report, indent=2)] and [json.loads] of the Python
    standard library, whose code is not part of the repository; the
    definitions follow the library's documentation and its encoder and
    decoder ([json.encoder], [json.decoder], [json.scanner]).

    A JSON value is what [json.dumps] accepts here: the values of [pyval]
    and floats.  A float is a rational in lowest terms; the constants NaN
    and Infinity are not part of the model, and a string holds code points
    below 256. *)
Inductive json : Type :=
| JNull : json
| JBool : bool -> json
| JInt : Z -> json
| JFloat : Q -> json
| JStr : string -> json
| JList : list json -> json
| JDict : list (string * json) -> json.

(** How floats are written and read: [float.__repr__], [float(text)], and
    the rationals that are floats. *)
Record float_format : Type := mkFloatFormat {
  float_repr : Q -> string;
  float_of_string : string -> option Q;
  is_float : Q -> Prop
}.

Definition dquote : ascii := ascii_of_nat 34.

(** *** The encoder *)

(** Four hexadecimal digits of a code point below 256 *)
Definition hex4 (n : nat) : string :=
  String "0" (String "0" (String (hex_digit (n / 16))
                            (String (hex_digit (n mod 16)) ""))).

(** One character of a string literal with [ensure_ascii]: the quote and
    the backslash are escaped, the usual control characters have their
    short escapes, every other character outside the printable ASCII range
    becomes a [\u] escape. *)
Definition escape_char (c : ascii) : string :=
  let n := nat_of_ascii c in
  if Ascii.eqb c dquote then String "\" (String dquote "")
  else if Ascii.eqb c "\" then "\\"
  else if (n =? 8)%nat then "\b"
  else if (n =? 12)%nat then "\f"
  else if (n =? 10)%nat then "\n"
  else if (n =? 13)%nat then "\r"
  else if (n =? 9)%nat then "\t"
  else if (n <? 32)%nat || (126 <? n)%nat then "\u" ++ hex4 n
  else String c "".

Fixpoint escape_chars (s : string) : string :=
  match s with
  | EmptyString => ""
  | String c s' => escape_char c ++ escape_chars s'
  end.

(** [encode_basestring_ascii(s)] *)
Definition encode_string (s : string) : string :=
  String dquote (escape_chars s ++ String dquote "").

Fixpoint spaces (n : nat) : string :=
  match n with
  | O => ""
  | S n' => String " " (spaces n')
  end.

(** A line break followed by the indentation of a nesting level, two
    spaces per level *)
Definition newline_indent (level : nat) : string :=
  String (ascii_of_nat 10) (spaces (2 * level)).

Section JsonText.

Variable ff : float_format.

(** Modelled from the spec: the encoder of the standard library.  The text
    of a value at a nesting level, as [json.dumps(v, indent=2)] lays it
    out: the items of a non-empty list or dict each on a line of
    their own, separated by commas, keys followed by a colon and a space. *)
Fixpoint json_encode (level : nat) (v : json) {struct v} : string :=
  match v with
  | JNull => "null"
  | JBool true => "true"
  | JBool false => "false"
  | JInt z => Z_to_string z
  | JFloat q => float_repr ff q
  | JStr s => encode_string s
  | JList [] => "[]"
  | JList xs =>
      "[" ++ newline_indent (S level)
        ++ String.concat ("," ++ newline_indent (S level))
             (map (json_encode (S level)) xs)
        ++ newline_indent level ++ "]"
  | JDict [] => "{}"
  | JDict kvs =>
      "{" ++ newline_indent (S level)
        ++ String.concat ("," ++ newline_indent (S level))
             (map (fun kv : string * json =>
                     let (k, x) := kv in
                     encode_string k ++ ": " ++ json_encode (S level) x)
                  kvs)
        ++ newline_indent level ++ "}"
  end.

(** [json.dumps(v, indent=2)] *)
Definition json_dumps (v : json) : string := json_encode 0 v.

(** *** The decoder *)

Definition is_ws (c : ascii) : bool :=
  Ascii.eqb c " " || (nat_of_ascii c =? 9)%nat
  || (nat_of_ascii c =? 10)%nat || (nat_of_ascii c =? 13)%nat.

(** The text after its leading white space *)
Fixpoint skip_ws (s : string) : string :=
  match s with
  | String c s' => if is_ws c then skip_ws s' else s
  | EmptyString => EmptyString
  end.

Definition hex_value (c : ascii) : option nat :=
  let n := nat_of_ascii c in
  if (48 <=? n)%nat && (n <=? 57)%nat then Some (n - 48)
  else if (97 <=? n)%nat && (n <=? 102)%nat then Some (n - 87)
  else if (65 <=? n)%nat && (n <=? 70)%nat then Some (n - 55)
  else None.

(** The character a one-letter escape stands for *)
Definition unescape (e : ascii) : option ascii :=
  if Ascii.eqb e dquote then Some dquote
  else if Ascii.eqb e "\" then Some "\"%char
  else if Ascii.eqb e "/" then Some "/"%char
  else if Ascii.eqb e "b" then Some (ascii_of_nat 8)
  else if Ascii.eqb e "f" then Some (ascii_of_nat 12)
  else if Ascii.eqb e "n" then Some (ascii_of_nat 10)
  else if Ascii.eqb e "r" then Some (ascii_of_nat 13)
  else if Ascii.eqb e "t" then Some (ascii_of_nat 9)
  else None.

(** [scanstring], from the character after the opening quote: the decoded
    string and the text after the closing quote.  A raw control character
    is refused, and so is an escape of a code point from 256 on. *)
Fixpoint scan_string (s : string) : option (string * string) :=
  match s with
  | EmptyString => None
  | String c s' =>
      if Ascii.eqb c dquote then Some ("", s')
      else if Ascii.eqb c "\" then
        match s' with
        | EmptyString => None
        | String e s1 =>
            if Ascii.eqb e "u" then
              match s1 with
              | String h1 (String h2 (String h3 (String h4 s2))) =>
                  match hex_value h1, hex_value h2, hex_value h3, hex_value h4 with
                  | Some a, Some b, Some c3, Some d =>
                      let n := ((a * 16 + b) * 16 + c3) * 16 + d in
                      if (n <? 256)%nat
                      then match scan_string s2 with
                           | Some (str, r) => Some (String (ascii_of_nat n) str, r)
                           | None => None
                           end
                      else None
                  | _, _, _, _ => None
                  end
              | _ => None
              end
            else
              match unescape e with
              | Some ch =>
                  match scan_string s1 with
                  | Some (str, r) => Some (String ch str, r)
                  | None => None
                  end
              | None => None
              end
        end
      else if (nat_of_ascii c <? 32)%nat then None
      else match scan_string s' with
           | Some (str, r) => Some (String c str, r)
           | None => None
           end
  end.

Definition is_digit (c : ascii) : bool :=
  (48 <=? nat_of_ascii c)%nat && (nat_of_ascii c <=? 57)%nat.

(** The digits at the head of a text, and what follows them *)
Fixpoint take_digits (s : string) : string * string :=
  match s with
  | String c s' =>
      if is_digit c
      then let (ds, r) := take_digits s' in (String c ds, r)
      else ("", s)
  | EmptyString => ("", "")
  end.

(** The integer part of a number: an optional minus sign, then a single
    zero or a non-zero digit followed by digits *)
Definition match_integer (s : string) : option (string * string) :=
  let (sign, r) :=
    match s with
    | String c r => if Ascii.eqb c "-" then ("-", r) else ("", s)
    | EmptyString => ("", s)
    end in
  match r with
  | String c r' =>
      if Ascii.eqb c "0" then Some (sign ++ "0", r')
      else if is_digit c
      then let (ds, r'') := take_digits r' in Some (sign ++ String c ds, r'')
      else None
  | EmptyString => None
  end.

(** The optional fraction: a dot and at least one digit *)
Definition match_frac (s : string) : string * string :=
  match s with
  | String c r =>
      if Ascii.eqb c "."
      then match take_digits r with
           | (EmptyString, _) => ("", s)
           | (ds, r') => (String c ds, r')
           end
      else ("", s)
  | EmptyString => ("", s)
  end.

(** The optional exponent: [e] or [E], an optional sign, at least one
    digit *)
Definition match_exp (s : string) : string * string :=
  match s with
  | String c r =>
      if Ascii.eqb c "e" || Ascii.eqb c "E"
      then
        let (sign, r1) :=
          match r with
          | String c1 r1 =>
              if Ascii.eqb c1 "-" || Ascii.eqb c1 "+"
              then (String c1 "", r1) else ("", r)
          | EmptyString => ("", r)
          end in
        match take_digits r1 with
        | (EmptyString, _) => ("", s)
        | (ds, r2) => (String c (sign ++ ds), r2)
        end
      else ("", s)
  | EmptyString => ("", s)
  end.

(** A number at the head of a text: an integer when it has neither
    fraction nor exponent, a float otherwise. *)
Definition scan_number (s : string) : option (json * string) :=
  match match_integer s with
  | None => None
  | Some (integer, r) =>
      let (frac, r1) := match_frac r in
      let (exp, r2) := match_exp r1 in
      if String.eqb frac "" && String.eqb exp ""
      then match NilZero.int_of_string integer with
           | Some d => Some (JInt (Z.of_int d), r2)
           | None => None
           end
      else match float_of_string ff (integer ++ frac ++ exp) with
           | Some q => Some (JFloat q, r2)
           | None => None
           end
  end.

(** [dict(pairs)]: a later pair with the same key replaces the value of the
    earlier one in place. *)
Fixpoint dict_set (k : string) (v : json) (d : list (string * json))
  : list (string * json) :=
  match d with
  | [] => [(k, v)]
  | (k', v') :: d' =>
      if String.eqb k k' then (k, v) :: d' else (k', v') :: dict_set k v d'
  end.

Definition dict_of_pairs (pairs : list (string * json)) : list (string * json) :=
  fold_left (fun d kv => dict_set (fst kv) (snd kv) d) pairs [].

(** Modelled from the spec: the decoder of the standard library.
    [scan_once]: the value at the head of a text and the text after it.
    [scan_members] reads the members of an object from the opening quote
    of a key on, [scan_elements] the elements of an array from its first
    value on.  Every call uses up one unit of [fuel]; [None] is a decoding
    error. *)
Fixpoint scan_once (fuel : nat) (s : string) {struct fuel}
  : option (json * string) :=
  match fuel with
  | O => None
  | S fuel' =>
      match s with
      | EmptyString => None
      | String c s' =>
          if Ascii.eqb c dquote then
            match scan_string s' with
            | Some (str, r) => Some (JStr str, r)
            | None => None
            end
          else if Ascii.eqb c "{" then
            match skip_ws s' with
            | EmptyString => None
            | String c1 r1 =>
                if Ascii.eqb c1 "}" then Some (JDict [], r1)
                else match scan_members fuel' (String c1 r1) with
                     | Some (pairs, r) => Some (JDict (dict_of_pairs pairs), r)
                     | None => None
                     end
            end
          else if Ascii.eqb c "[" then
            match skip_ws s' with
            | EmptyString => None
            | String c1 r1 =>
                if Ascii.eqb c1 "]" then Some (JList [], r1)
                else match scan_elements fuel' (String c1 r1) with
                     | Some (values, r) => Some (JList values, r)
                     | None => None
                     end
            end
          else if String.prefix "null" s then Some (JNull, str_drop 4 s)
          else if String.prefix "true" s then Some (JBool true, str_drop 4 s)
          else if String.prefix "false" s then Some (JBool false, str_drop 5 s)
          else scan_number s
      end
  end

with scan_members (fuel : nat) (s : string) {struct fuel}
  : option (list (string * json) * string) :=
  match fuel with
  | O => None
  | S fuel' =>
      match s with
      | EmptyString => None
      | String c s' =>
          if Ascii.eqb c dquote then
            match scan_string s' with
            | None => None
            | Some (key, r) =>
                match skip_ws r with
                | EmptyString => None
                | String c2 r2 =>
                    if Ascii.eqb c2 ":" then
                      match scan_once fuel' (skip_ws r2) with
                      | None => None
                      | Some (value, r3) =>
                          match skip_ws r3 with
                          | EmptyString => None
                          | String c3 r4 =>
                              if Ascii.eqb c3 "}" then Some ([(key, value)], r4)
                              else if Ascii.eqb c3 "," then
                                match scan_members fuel' (skip_ws r4) with
                                | Some (pairs, r5) => Some ((key, value) :: pairs, r5)
                                | None => None
                                end
                              else None
                          end
                      end
                    else None
                end
            end
          else None
      end
  end

with scan_elements (fuel : nat) (s : string) {struct fuel}
  : option (list json * string) :=
  match fuel with
  | O => None
  | S fuel' =>
      match scan_once fuel' s with
      | None => None
      | Some (value, r) =>
          match skip_ws r with
          | EmptyString => None
          | String c r1 =>
              if Ascii.eqb c "]" then Some ([value], r1)
              else if Ascii.eqb c "," then
                match scan_elements fuel' (skip_ws r1) with
                | Some (values, r2) => Some (value :: values, r2)
                | None => None
                end
              else None
          end
      end
  end.

(** Modelled from the spec: [json.loads(text)] of the standard library.
    Leading white space is skipped, one value is read,
    and only white space may follow it.  The length of the text is fuel
    enough, as every call of the scanner consumes a character. *)
Definition json_decode (text : string) : outcome json :=
  match scan_once (S (String.length text)) (skip_ws text) with
  | Some (v, r) =>
      match skip_ws r with
      | EmptyString => Ret v
      | _ => Raise (mkExn JSONDecodeError "Extra data")
      end
  | None => Raise (mkExn JSONDecodeError "Expecting value")
  end.

End JsonText.

(** *** The JSON report *)

(** A value of a declaration or of a details mapping as a JSON value *)
Fixpoint json_of_pyval (v : pyval) : json :=
  match v with
  | VNone => JNull
  | VBool b => JBool b
  | VInt z => JInt z
  | VStr s => JStr s
  | VList xs => JList (map json_of_pyval xs)
  | VDict kvs =>
      JDict (map (fun kv : string * pyval =>
                    let (k, x) := kv in (k, json_of_pyval x)) kvs)
  end.

(** The mapping [to_json] builds for one result.  A duration enters the
    report as a float, in lowest terms. *)
Definition result_record (r : TestResult) : json :=
  JDict [("name", json_of_pyval (name r));
         ("status", JStr (status_value (status r)));
         ("duration", JFloat (Qred (duration r)));
         ("message", JStr (message r));
         ("details", json_of_pyval (VDict (details r)));
         ("timestamp", JStr (timestamp r))].

(** [ReportGenerator.to_json(results, summary, output_path)].  [write_text]
    stands for creating the parent directories of the output path and
    writing the text there; the log line is not modelled. *)
Definition to_json (w : world) (ff : float_format)
    (write_text : string -> string -> outcome unit)
    (results : list TestResult) (summary : json)
    (output_path : option string) : M string :=
  generated <- datetime_now_isoformat w ;;
  let report :=
    JDict [("generated", JStr generated);
           ("summary", summary);
           ("results", JList (map result_record results))] in
  let json_str := json_dumps ff report in
  match output_path with
  | Some p => _ <- lift (write_text p json_str) ;; ret json_str
  | None => ret json_str
  end.

(** The mapping [get_summary] returns, as a JSON value: the counts are
    integers, the duration is a float, the success rate is a float, or the
    integer 0 when there are no results. *)
Definition summary_dict (self : TestRunner) : json :=
  JDict [("total", JInt (total (get_summary self)));
         ("passed", JInt (passed (get_summary self)));
         ("failed", JInt (failed (get_summary self)));
         ("errors", JInt (errors (get_summary self)));
         ("skipped", JInt (skipped (get_summary self)));
         ("duration", JFloat (Qred (summary_duration (get_summary self))));
         ("success_rate",
          match results self with
          | _ :: _ => JFloat (Qred (success_rate (get_summary self)))
          | [] => JInt 0
          end)].

(** ** Vocabulary of the properties *)

(** The expected extension as the specification words it: lower-cased, with
    a leading dot added when absent. *)
Definition normalize_ext (e : string) : string :=
  if startswith_dot e then str_lower e else "." ++ str_lower e.

(** An optional integer bound as the caller passes it. *)
Definition opt_int (o : option Z) : pyval :=
  match o with
  | Some m => VInt m
  | None => VNone
  end.

Definition in_range (size min_bytes : Z) (max_bytes : option Z) : bool :=
  (min_bytes <=? size)%Z &&
  match max_bytes with
  | Some m => (size <=? m)%Z
  | None => true
  end.

(** [returns c]: started at any tick, [c] returns a value. *)
Definition returns {A : Type} (c : M A) : Prop :=
  forall t : nat, exists (a : A) (t' : nat), c t = (Ret a, t').

(** [post P c]: whatever [c] returns satisfies [P]. *)
Definition post {A : Type} (P : A -> Prop) (c : M A) : Prop :=
  forall (t : nat) (a : A) (t' : nat), c t = (Ret a, t') -> P a.

(** The statuses of a completed result. *)
Definition terminal (s : TestStatus) : Prop :=
  s = PASSED \/ s = FAILED \/ s = SKIPPED \/ s = ERROR.

Definition terminal_result (r : TestResult) : Prop := terminal (status r).

(** The runners a program can hold: a fresh one, or one on which
    [run_suite] has been called (whether the call returned or raised), in
    any world and at any time. *)
Inductive runner_state : TestRunner -> Prop :=
| runner_fresh : runner_state TestRunner_new
| runner_ran : forall (w : world) (self : TestRunner) (suite : TestSuite)
                      (t : nat) self' o t',
    runner_state self ->
    run_suite w self suite t = (self', o, t') ->
    runner_state self'.

(** ** Sample environment *)

Definition newline : string := String (ascii_of_nat 10) "".

(** [s] between double quotes *)
Definition quoted (s : string) : string :=
  String (ascii_of_nat 34) (s ++ String (ascii_of_nat 34) "").

(** What the probe prints for a file it cannot open: an empty JSON
    object spread over three lines. *)
Definition empty_probe_output : string := "{" ++ newline ++ newline ++ "}".

(** What the probe prints for the sample clip: one audio and one video
    stream. *)
Definition clip_probe_output : string :=
  "{" ++ quoted "streams" ++ ": [{" ++ quoted "codec_type" ++ ": "
    ++ quoted "audio" ++ ", " ++ quoted "codec_name" ++ ": " ++ quoted "aac"
    ++ "}, {" ++ quoted "codec_type" ++ ": " ++ quoted "video" ++ ", "
    ++ quoted "codec_name" ++ ": " ++ quoted "h264" ++ ", "
    ++ quoted "width" ++ ": 1920, " ++ quoted "height" ++ ": 1080}]}".

Definition clip_probe_data : pyval :=
  VDict [("streams",
          VList [VDict [("codec_type", VStr "audio"); ("codec_name", VStr "aac")];
                 VDict [("codec_type", VStr "video"); ("codec_name", VStr "h264");
                        ("width", VInt 1920); ("height", VInt 1080)]])].

Definition no_such_file (p : string) : exn :=
  mkExn FileNotFoundError ("[Errno 2] No such file or directory: " ++ repr_str p).

(** A machine with one image, one JSON document, one broken JSON document,
    one clip and the probe installed; the probe exits with status 1 on any
    other path; the clock advances one second per reading. *)
Definition studio : world :=
  mkWorld
    (fun p => String.eqb p "/assets/plate.exr"
              || String.eqb p "/assets/shot.json"
              || String.eqb p "/assets/broken.json"
              || String.eqb p "/assets/clip.mov")
    (fun p => if String.eqb p "/assets/plate.exr" then Ret 2048%Z
              else if String.eqb p "/assets/shot.json" then Ret 31%Z
              else if String.eqb p "/assets/broken.json" then Ret 1%Z
              else if String.eqb p "/assets/clip.mov" then Ret 7340032%Z
              else Raise (no_such_file p))
    (fun f => match f with
              | PathRef p =>
                  if String.eqb p "/assets/shot.json"
                  then Ret (VDict [("name", VStr "shot_010"); ("fps", VInt 24)])
                  else if String.eqb p "/assets/broken.json"
                  then Raise (mkExn JSONDecodeError
                                "Expecting value: line 1 column 1 (char 0)")
                  else Raise (no_such_file p)
              | FdRef _ => Raise (mkExn OSError "[Errno 9] Bad file descriptor")
              end)
    (fun alg f => match f with
                  | PathRef p =>
                      if String.eqb p "/assets/plate.exr"
                      then Ret "9e107d9d372bb6826bd81d3542a419d6"
                      else Raise (no_such_file p)
                  | FdRef _ => Raise (mkExn OSError "[Errno 9] Bad file descriptor")
                  end)
    (fun p => if String.eqb p "/assets/clip.mov"
              then Ret (mkCompleted 0 clip_probe_output)
              else Ret (mkCompleted 1 empty_probe_output))
    (fun text => if String.eqb text empty_probe_output then Ret (VDict [])
                 else if String.eqb text clip_probe_output then Ret clip_probe_data
                 else Raise (mkExn JSONDecodeError
                               "Expecting value: line 1 column 1 (char 0)"))
    (fun n => inject_Z (Z.of_nat n))
    (fun n => "2024-05-01T09:00:" ++ nat_to_string n).

(** The same machine with another outcome for every run of the probe. *)
Definition with_probe (w : world) (run : string -> outcome CompletedProcess)
  : world :=
  mkWorld (path_exists w) (stat_size w) (load_json_file w) (file_hexdigest w)
    run (json_loads w) (time_time w) (now_isoformat w).

(** The machine without the probe binary. *)
Definition bare : world :=
  with_probe studio
    (fun _ => Raise (mkExn FileNotFoundError
                       "[Errno 2] No such file or directory: 'ffprobe'")).

(** The machine on which the probe never finishes within its 30 seconds. *)
Definition stalled : world :=
  with_probe studio
    (fun _ => Raise (mkExn TimeoutExpired
                       "Command '['ffprobe', ...]' timed out after 30 seconds")).

(** A declaration of a type that is not registered. *)
Definition nonexistent_decl : pydict :=
  [("name", VStr "Colour pipeline"); ("type", VStr "nonexistent");
   ("params", VDict [])].

(** A [file_format] declaration that leaves out [expected_ext]. *)
Definition missing_parameter_decl : pydict :=
  [("name", VStr "Plate format"); ("type", VStr "file_format");
   ("params", VDict [("path", VStr "/assets/plate.exr")])].

(** A [file_format] declaration whose [expected_ext] is a number. *)
Definition bad_parameter_decl : pydict :=
  [("name", VStr "Plate format"); ("type", VStr "file_format");
   ("params", VDict [("path", VStr "/assets/plate.exr");
                     ("expected_ext", VInt 16)])].

(** A suite of two declarations, the second without a name. *)
Definition plates_suite : TestSuite :=
  mkTestSuite "plates"
    [ [("name", VStr "Plate on disk"); ("type", VStr "file_exists");
       ("params", VDict [("path", VStr "/assets/plate.exr")])];
      [("type", VStr "file_size");
       ("params", VDict [("path", VStr "/assets/plate.exr");
                         ("min_bytes", VInt 2048)])] ]
    "Incoming plates" "2024-05-01T08:59:00".

(** The runner after the sample suite has run in the sample world. *)
Definition plates_runner : TestRunner :=
  fst (fst (run_suite studio TestRunner_new plates_suite 0)).

(** *** Reading a report back *)

(** [report[k]] on a decoded object *)
Definition json_get (k : string) (v : json) : option json :=
  match v with
  | JDict kvs =>
      (fix find (l : list (string * json)) : option json :=
         match l with
         | [] => None
         | (k', x) :: l' => if String.eqb k k' then Some x else find l'
         end) kvs
  | _ => None
  end.

(** The value of [pyval] a JSON value without floats stands for *)
Fixpoint pyval_of_json (v : json) : option pyval :=
  match v with
  | JNull => Some VNone
  | JBool b => Some (VBool b)
  | JInt z => Some (VInt z)
  | JFloat _ => None
  | JStr s => Some (VStr s)
  | JList xs =>
      option_map VList
        ((fix all (l : list json) : option (list pyval) :=
            match l with
            | [] => Some []
            | x :: l' =>
                match pyval_of_json x, all l' with
                | Some a, Some b => Some (a :: b)
                | _, _ => None
                end
            end) xs)
  | JDict kvs =>
      option_map VDict
        ((fix all (l : list (string * json)) : option (list (string * pyval)) :=
            match l with
            | [] => Some []
            | (k, x) :: l' =>
                match pyval_of_json x, all l' with
                | Some a, Some b => Some ((k, a) :: b)
                | _, _ => None
                end
            end) kvs)
  end.

(** The status a status tag names *)
Definition status_of_value (tag : string) : option TestStatus :=
  if String.eqb tag "pending" then Some PENDING
  else if String.eqb tag "running" then Some RUNNING
  else if String.eqb tag "passed" then Some PASSED
  else if String.eqb tag "failed" then Some FAILED
  else if String.eqb tag "skipped" then Some SKIPPED
  else if String.eqb tag "error" then Some ERROR
  else None.

(** The result a decoded result record describes *)
Definition read_result (item : json) : option TestResult :=
  match json_get "name" item, json_get "status" item,
        json_get "duration" item, json_get "message" item,
        json_get "details" item, json_get "timestamp" item with
  | Some n, Some (JStr tag), Some (JFloat d), Some (JStr m), Some det,
    Some (JStr ts) =>
      match pyval_of_json n, status_of_value tag, pyval_of_json det with
      | Some n', Some st, Some (VDict det') =>
          Some (mkTestResult n' st d m det' ts)
      | _, _, _ => None
      end
  | _, _, _, _, _, _ => None
  end.

(** The values Python can hold: the keys of a dict are distinct. *)
Inductive py_wf : pyval -> Prop :=
| py_wf_none : py_wf VNone
| py_wf_bool : forall b, py_wf (VBool b)
| py_wf_int : forall z, py_wf (VInt z)
| py_wf_str : forall s, py_wf (VStr s)
| py_wf_list : forall xs, Forall py_wf xs -> py_wf (VList xs)
| py_wf_dict : forall kvs,
    NoDup (map fst kvs) ->
    Forall (fun kv => py_wf (snd kv)) kvs ->
    py_wf (VDict kvs).

(** The JSON values Python can hold: the keys of a dict are distinct and
    every float is a float of the format. *)
Inductive json_wf (ff : float_format) : json -> Prop :=
| json_wf_null : json_wf ff JNull
| json_wf_bool : forall b, json_wf ff (JBool b)
| json_wf_int : forall z, json_wf ff (JInt z)
| json_wf_float : forall q, is_float ff q -> json_wf ff (JFloat q)
| json_wf_str : forall s, json_wf ff (JStr s)
| json_wf_list : forall xs, Forall (json_wf ff) xs -> json_wf ff (JList xs)
| json_wf_dict : forall kvs,
    NoDup (map fst kvs) ->
    Forall (fun kv => json_wf ff (snd kv)) kvs ->
    json_wf ff (JDict kvs).

(** A result Python can hold, with a duration that is a float *)
Definition result_wf (ff : float_format) (r : TestResult) : Prop :=
  py_wf (name r) /\ py_wf (VDict (details r)) /\ is_float ff (Qred (duration r)).

(** A number literal with a fraction or an exponent, and nothing after it *)
Definition float_literal (tok : string) : bool :=
  match match_integer tok with
  | Some (integer, r) =>
      let (frac, r1) := match_frac r in
      let (exp, r2) := match_exp r1 in
      String.eqb r2 "" && negb (String.eqb frac "" && String.eqb exp "")
  | None => false
  end.

(** What Python guarantees of its floats: the text of a float is a number
    literal with a fraction or an exponent, and reading it gives the float
    back. *)
Definition float_format_ok (ff : float_format) : Prop :=
  (forall q, is_float ff q -> float_literal (float_repr ff q) = true) /\
  (forall q, is_float ff q -> float_of_string ff (float_repr ff q) = Some q).

(** A text that does not continue a number: empty, or starting with a
    character that is no digit, dot, exponent mark or sign. *)
Definition number_stops (rest : string) : bool :=
  match rest with
  | EmptyString => true
  | String c _ =>
      negb (is_digit c || Ascii.eqb c "." || Ascii.eqb c "e" || Ascii.eqb c "E"
            || Ascii.eqb c "+" || Ascii.eqb c "-")
  end.

(** The number of scanner calls a value needs *)
Fixpoint json_size (v : json) : nat :=
  match v with
  | JList xs =>
      S ((fix sum (l : list json) : nat :=
            match l with
            | [] => 0
            | x :: l' => S (json_size x + sum l')
            end) xs)
  | JDict kvs =>
      S ((fix sum (l : list (string * json)) : nat :=
            match l with
            | [] => 0
            | (_, x) :: l' => S (json_size x + sum l')
            end) kvs)
  | _ => 1
  end.

Fixpoint elements_size (xs : list json) : nat :=
  match xs with
  | [] => 0
  | x :: l => S (json_size x + elements_size l)
  end.

Fixpoint members_size (kvs : list (string * json)) : nat :=
  match kvs with
  | [] => 0
  | (_, x) :: l => S (json_size x + members_size l)
  end.

(** What the JSON report round trip says of a report text: it decodes to
    an object whose "summary" is the summary given and whose "results" is a
    list with one record per result, in order, and each record reads back
    as a result with the same name, status, message, details and
    timestamp, and an equal duration. *)
Definition report_round_trips (ff : float_format) (text : string)
    (results : list TestResult) (summary : json) : Prop :=
  exists (report : json) (items : list json),
    json_decode ff text = Ret report /\
    json_get "summary" report = Some summary /\
    json_get "results" report = Some (JList items) /\
    List.length items = List.length results /\
    forall (i : nat) (r : TestResult),
      nth_error results i = Some r ->
      exists (item : json) (r' : TestResult),
        nth_error items i = Some item /\
        read_result item = Some r' /\
        name r' = name r /\
        status_value (status r') = status_value (status r) /\
        status r' = status r /\
        (duration r' == duration r)%Q /\
        message r' = message r /\
        details r' = details r /\
        timestamp r' = timestamp r.

(** *** A float format for whole seconds *)

(** Floats with a whole value up to 2^53, written as Python writes them: the
    digits of the value followed by [.0]. *)
Definition whole_seconds : float_format :=
  mkFloatFormat
    (fun q => Z_to_string (Qnum q) ++ ".0")
    (fun text =>
       match match_integer text with
       | Some (integer, rest) =>
           if String.eqb rest ".0"
           then match NilZero.int_of_string integer with
                | Some d => Some (inject_Z (Z.of_int d))
                | None => None
                end
           else None
       | None => None
       end)
    (fun q => Qden q = 1%positive /\ (Z.abs (Qnum q) <= 2 ^ 53)%Z).

(** * Properties *)

(** ** Lower-casing and path suffixes *)

Lemma ascii_lower_idem (c : ascii) : ascii_lower (ascii_lower c) = ascii_lower c.
Proof. destruct c as [[] [] [] [] [] [] [] []]; reflexivity. Qed.

Lemma ascii_lower_dot (c : ascii) :
  Ascii.eqb (ascii_lower c) "." = Ascii.eqb c ".".
Proof. destruct c as [[] [] [] [] [] [] [] []]; reflexivity. Qed.

Lemma ascii_lower_slash (c : ascii) :
  Ascii.eqb (ascii_lower c) "/" = Ascii.eqb c "/".
Proof. destruct c as [[] [] [] [] [] [] [] []]; reflexivity. Qed.

Lemma str_lower_idem (s : string) : str_lower (str_lower s) = str_lower s.
Proof.
  induction s as [|c s IH]; simpl; [reflexivity|].
  now rewrite ascii_lower_idem, IH.
Qed.

Lemma str_lower_length (s : string) :
  String.length (str_lower s) = String.length s.
Proof. induction s as [|c s IH]; simpl; [reflexivity|]. now rewrite IH. Qed.

Lemma startswith_dot_lower (s : string) :
  startswith_dot (str_lower s) = startswith_dot s.
Proof. destruct s as [|c s]; simpl; [reflexivity|]. apply ascii_lower_dot. Qed.

Lemma str_lower_eq_empty (s : string) :
  String.eqb (str_lower s) "" = String.eqb s "".
Proof. destruct s; reflexivity. Qed.

Lemma str_lower_eq_dot (s : string) :
  String.eqb (str_lower s) "." = String.eqb s ".".
Proof.
  destruct s as [|c [|d s]]; simpl; try reflexivity.
  - rewrite ascii_lower_dot. reflexivity.
  - rewrite ascii_lower_dot. reflexivity.
Qed.

Lemma path_component_lower (x : string) :
  path_component (str_lower x) = path_component x.
Proof.
  unfold path_component. now rewrite str_lower_eq_empty, str_lower_eq_dot.
Qed.

Lemma str_split_lower (s : string) :
  str_split "/" (str_lower s) = map str_lower (str_split "/" s).
Proof.
  induction s as [|c s IH]; simpl; [reflexivity|].
  rewrite ascii_lower_slash, IH.
  destruct (Ascii.eqb c "/"); simpl; [reflexivity|].
  destruct (str_split "/" s); reflexivity.
Qed.

Lemma path_parts_lower (p : string) :
  path_parts (str_lower p) = map str_lower (path_parts p).
Proof.
  unfold path_parts. rewrite str_split_lower.
  induction (str_split "/" p) as [|x xs IH]; simpl; [reflexivity|].
  rewrite path_component_lower, IH.
  destruct (path_component x); reflexivity.
Qed.

Lemma last_map_lower (l : list string) :
  last (map str_lower l) "" = str_lower (last l "").
Proof.
  induction l as [|x [|y l] IH]; simpl in *; try reflexivity. exact IH.
Qed.

Lemma path_name_lower (p : string) :
  path_name (str_lower p) = str_lower (path_name p).
Proof. unfold path_name. now rewrite path_parts_lower, last_map_lower. Qed.

Lemma str_rfind_dot_lower (s : string) :
  str_rfind "." (str_lower s) = str_rfind "." s.
Proof.
  induction s as [|c s IH]; simpl; [reflexivity|].
  now rewrite IH, ascii_lower_dot.
Qed.

Lemma str_drop_lower (i : nat) (s : string) :
  str_drop i (str_lower s) = str_lower (str_drop i s).
Proof.
  revert s; induction i as [|i IH]; intros s; [reflexivity|].
  destruct s as [|c s]; simpl; [reflexivity|]. apply IH.
Qed.

(** Lower-casing commutes with taking the suffix of a path. *)
Lemma path_suffix_lower (p : string) :
  path_suffix (str_lower p) = str_lower (path_suffix p).
Proof.
  unfold path_suffix. rewrite path_name_lower, str_rfind_dot_lower.
  destruct (str_rfind "." (path_name p)) as [i|]; [|reflexivity].
  rewrite str_lower_length, str_drop_lower.
  destruct ((0 <? i)%nat && (i <? String.length (path_name p) - 1)%nat); reflexivity.
Qed.

Lemma normalize_ext_lower (e : string) :
  normalize_ext (str_lower e) = normalize_ext e.
Proof.
  unfold normalize_ext. now rewrite startswith_dot_lower, str_lower_idem.
Qed.

(** ** file_format *)

(** The value [validate_file_format] returns on two strings. *)
Lemma validate_file_format_str (w : world) (path expected_ext : string) (t : nat) :
  validate_file_format w (VStr path) (VStr expected_ext) t =
  (Ret (mkTestResult (VStr "File Format Check")
          (if String.eqb (str_lower (path_suffix path)) (normalize_ext expected_ext)
           then PASSED else FAILED)
          (time_time w (S t) - time_time w t)%Q
          ("Expected " ++ normalize_ext expected_ext ++ ", got "
             ++ str_lower (path_suffix path))
          [("expected", VStr (normalize_ext expected_ext));
           ("actual", VStr (str_lower (path_suffix path)))]
          (now_isoformat w (S (S t)))),
   S (S (S t))).
Proof.
  unfold validate_file_format, normalize_ext, bind, lift, time_now,
    TestResult_new, datetime_now_isoformat, ret; simpl.
  destruct (startswith_dot expected_ext); reflexivity.
Qed.

(** C9. On a string path and a string extension, [validate_file_format]
    returns a result whose status is [PASSED] exactly when the lower-cased
    suffix of the path equals the expected extension lower-cased with a
    leading dot added when absent, and [FAILED] otherwise.  The comparison
    is case-insensitive in both arguments: a path and an extension that
    differ from the given ones only in letter case (equal lower-casings)
    get the same status. *)
Theorem file_format_passed_iff_extension_matches :
  forall (w : world) (path expected_ext : string) (t : nat),
  exists (r : TestResult) (t' : nat),
    validate_file_format w (VStr path) (VStr expected_ext) t = (Ret r, t') /\
    (status r = PASSED <->
       str_lower (path_suffix path) = normalize_ext expected_ext) /\
    (status r <> PASSED -> status r = FAILED) /\
    (forall (path2 ext2 : string) (t2 : nat),
        str_lower path2 = str_lower path ->
        str_lower ext2 = str_lower expected_ext ->
        exists (r2 : TestResult) (t2' : nat),
          validate_file_format w (VStr path2) (VStr ext2) t2 = (Ret r2, t2') /\
          status r2 = status r).
Proof.
  intros w path expected_ext t.
  rewrite validate_file_format_str.
  eexists; eexists; split; [reflexivity|]; simpl.
  split; [|split].
  - destruct (String.eqb_spec (str_lower (path_suffix path))
                (normalize_ext expected_ext)) as [E|E].
    + split; auto.
    + split; [discriminate | contradiction].
  - destruct (String.eqb _ _); [intros H; now elim H | reflexivity].
  - intros path2 ext2 t2 Hp He.
    rewrite validate_file_format_str.
    eexists; eexists; split; [reflexivity|]; simpl.
    rewrite <- (path_suffix_lower path2), <- (path_suffix_lower path), Hp.
    rewrite <- (normalize_ext_lower ext2), <- (normalize_ext_lower expected_ext), He.
    reflexivity.
Qed.

Example file_format_mixed_case :
  forall (w : world) (t : nat),
    exists r t',
      validate_file_format w (VStr "/shots/Plate_010.EXR") (VStr "exr") t = (Ret r, t')
      /\ status r = PASSED /\ details r = [("expected", VStr ".exr"); ("actual", VStr ".exr")].
Proof.
  intros w t. rewrite validate_file_format_str.
  eexists; eexists; split; [reflexivity|]. split; reflexivity.
Qed.

(** C10. [validate_file_format] does not consult the filesystem: on a
    string path and a string extension it returns, in every world, a result
    with the same name, status, message and details (only the clock
    readings differ); the status is [PASSED] or [FAILED]; and a path that
    does not exist whose suffix matches the expected extension is
    [PASSED]. *)
Theorem file_format_ignores_filesystem :
  forall (w1 w2 : world) (path expected_ext : string) (t1 t2 : nat),
  exists (r1 r2 : TestResult) (t1' t2' : nat),
    validate_file_format w1 (VStr path) (VStr expected_ext) t1 = (Ret r1, t1') /\
    validate_file_format w2 (VStr path) (VStr expected_ext) t2 = (Ret r2, t2') /\
    name r1 = name r2 /\ status r1 = status r2 /\
    message r1 = message r2 /\ details r1 = details r2 /\
    (status r1 = PASSED \/ status r1 = FAILED) /\
    (path_exists w1 path = false /\
     str_lower (path_suffix path) = normalize_ext expected_ext ->
     status r1 = PASSED).
Proof.
  intros w1 w2 path expected_ext t1 t2.
  rewrite !validate_file_format_str.
  do 4 eexists. split; [reflexivity|]. split; [reflexivity|]. simpl.
  repeat split.
  - destruct (String.eqb _ _); auto.
  - intros [_ E]. rewrite E, String.eqb_refl. reflexivity.
Qed.

(** ** Reasoning about computations *)

Lemma returns_ret {A : Type} (a : A) : returns (ret a).
Proof. intros t. now exists a, t. Qed.

Lemma returns_bind {A B : Type} (c : M A) (k : A -> M B) :
  returns c -> (forall a, returns (k a)) -> returns (bind c k).
Proof.
  intros Hc Hk t. destruct (Hc t) as (a & t1 & E).
  destruct (Hk a t1) as (b & t2 & E2).
  exists b, t2. unfold bind. now rewrite E.
Qed.

Lemma returns_try_except {A : Type} (body : M A) (handler : exn -> M A) :
  (forall e, returns (handler e)) -> returns (try_except body handler).
Proof.
  intros Hh t. unfold try_except.
  destruct (body t) as [[a|e] t1].
  - now exists a, t1.
  - apply Hh.
Qed.

Lemma returns_time_now (w : world) : returns (time_now w).
Proof. intros t. now exists (time_time w t), (S t). Qed.

Lemma returns_TestResult_new (w : world) n s d m det :
  returns (TestResult_new w n s d m det).
Proof. intros t. eexists; eexists. reflexivity. Qed.

Lemma post_bind {A B : Type} (P : B -> Prop) (c : M A) (k : A -> M B) :
  (forall a, post P (k a)) -> post P (bind c k).
Proof.
  intros Hk t b t'. unfold bind.
  destruct (c t) as [[a|e] t1]; [apply Hk | discriminate].
Qed.

Lemma post_try_except {A : Type} (P : A -> Prop) (body : M A) (handler : exn -> M A) :
  post P body -> (forall e, post P (handler e)) -> post P (try_except body handler).
Proof.
  intros Hb Hh t a t'. unfold try_except.
  destruct (body t) as [[a1|e] t1] eqn:E.
  - intros H; inversion H; subst. eapply Hb; eassumption.
  - apply Hh.
Qed.

Lemma post_raise {A : Type} (P : A -> Prop) (e : exn) : post P (raise e).
Proof. intros t a t'. discriminate. Qed.

Lemma post_TestResult_new (P : TestResult -> Prop) (w : world) n s d m det :
  (forall ts, P (mkTestResult n s d m (match det with Some x => x | None => [] end) ts)) ->
  post P (TestResult_new w n s d m det).
Proof.
  intros H t a t'. unfold TestResult_new, bind, datetime_now_isoformat, ret.
  intros E; inversion E; subst. apply H.
Qed.

Ltac returns_step :=
  first
    [ apply returns_TestResult_new
    | apply returns_time_now
    | apply returns_ret
    | apply returns_bind; [| intros ?]
    | apply returns_try_except; intros ?
    | match goal with
      | |- returns (if ?b then _ else _) => destruct b
      end ].

Ltac post_step :=
  first
    [ apply post_TestResult_new; intros ?
    | apply post_raise
    | apply post_bind; intros ?
    | apply post_try_except; [| intros ?]
    | match goal with
      | |- post _ (if ?b then _ else _) => destruct b
      | |- post _ (match ?x with _ => _ end) => destruct x
      end ].

(** ** Terminal statuses *)

Ltac terminal_tac :=
  repeat post_step;
  unfold terminal_result, terminal; simpl;
  try match goal with |- context [if ?b then _ else _] => destruct b end;
  auto.

Lemma validate_file_exists_terminal w path :
  post terminal_result (validate_file_exists w path).
Proof. unfold validate_file_exists. terminal_tac. Qed.

Lemma validate_file_format_terminal w path e :
  post terminal_result (validate_file_format w path e).
Proof. unfold validate_file_format. terminal_tac. Qed.

Lemma validate_file_size_terminal w path a b :
  post terminal_result (validate_file_size w path a b).
Proof. unfold validate_file_size. terminal_tac. Qed.

Lemma validate_json_schema_terminal w path k :
  post terminal_result (validate_json_schema w path k).
Proof. unfold validate_json_schema. terminal_tac. Qed.

Lemma validate_checksum_terminal w path h a :
  post terminal_result (validate_checksum w path h a).
Proof. unfold validate_checksum. terminal_tac. Qed.

Lemma validate_video_codec_terminal w path c :
  post terminal_result (validate_video_codec w path c).
Proof. unfold validate_video_codec. terminal_tac. Qed.

Lemma validate_resolution_terminal w path a b :
  post terminal_result (validate_resolution w path a b).
Proof. unfold validate_resolution. terminal_tac. Qed.

(** Every registered validator, called with keyword arguments, returns
    results with a terminal status. *)
Lemma validator_map_terminal (w : world) (k : string)
    (v : pydict -> M TestResult) :
  registry_find k (validator_map w) = Some v ->
  forall kw, post terminal_result (v kw).
Proof.
  unfold validator_map; simpl.
  repeat (destruct (String.eqb k _);
          [ intros H; inversion H; subst; intros kw;
            unfold call_validate_file_exists, call_validate_file_format,
              call_validate_file_size, call_validate_json_schema,
              call_validate_checksum, call_validate_video_codec,
              call_validate_resolution;
            unfold validate_file_exists, validate_file_format,
              validate_file_size, validate_json_schema, validate_checksum,
              validate_video_codec, validate_resolution;
            terminal_tac
          | ]).
  discriminate.
Qed.

Lemma post_bind_lift {A B : Type} (P : B -> Prop) (o : outcome A) (k : A -> M B) :
  (forall a, o = Ret a -> post P (k a)) -> post P (bind (lift o) k).
Proof.
  intros Hk t b t'. unfold bind, lift.
  destruct o as [a|e]; [now apply Hk | discriminate].
Qed.

Lemma run_test_terminal (w : world) (test_config : pydict) :
  post terminal_result (run_test w test_config).
Proof.
  unfold run_test. apply post_bind_lift. intros [v|] Hv.
  - unfold validator_map_get in Hv.
    destruct (py_hashable _); [|discriminate].
    destruct (dict_get_default "type" test_config VNone) as [| | |k| |];
      try discriminate.
    injection Hv as Hv.
    unfold call_kwargs.
    destruct (dict_get_default "params" test_config (VDict []));
      try apply post_raise.
    apply (validator_map_terminal w k v Hv).
  - apply post_TestResult_new. intros ts.
    unfold terminal_result, terminal; simpl; auto.
Qed.

(** ** The results a runner holds *)

Lemma run_suite_loop_terminal (w : world) (tests : list pydict) :
  forall (self : TestRunner) (i t : nat) self' o t',
    Forall terminal_result (results self) ->
    run_suite_loop w self i tests t = (self', o, t') ->
    Forall terminal_result (results self').
Proof.
  induction tests as [|d rest IH]; intros self i t self' o t' Hall; simpl.
  - intros E; inversion E; subst; assumption.
  - destruct (run_test w d t) as [[r|e] t1] eqn:Er.
    + intros E. eapply IH; [|exact E]. simpl.
      apply Forall_app; split; [assumption|].
      constructor; [|constructor].
      apply (run_test_terminal w d t r t1) in Er.
      exact Er.
    + intros E; inversion E; subst; assumption.
Qed.

Lemma run_suite_terminal (w : world) (self : TestRunner) (suite : TestSuite)
    (t : nat) self' o t' :
  run_suite w self suite t = (self', o, t') ->
  Forall terminal_result (results self').
Proof.
  unfold run_suite.
  destruct (run_suite_loop w _ 1 (tests suite) (S t)) as [[self1 [u|e]] t1] eqn:E;
    intros H; inversion H; subst; simpl;
    eapply run_suite_loop_terminal in E; simpl; auto.
Qed.

Lemma runner_state_terminal (self : TestRunner) :
  runner_state self -> Forall terminal_result (results self).
Proof.
  intros H; induction H as [|w self suite t self' o t' _ _ E].
  - constructor.
  - eapply run_suite_terminal; eassumption.
Qed.

(** ** Summary *)

Lemma sum_ones {A : Type} (l : list A) (a : Z) :
  fold_left Z.add (map (fun _ => 1%Z) l) a = (a + Z.of_nat (List.length l))%Z.
Proof.
  revert a; induction l as [|x l IH]; intros a; simpl List.length.
  - simpl. lia.
  - simpl fold_left. rewrite IH. lia.
Qed.

Lemma count_status_cons (s : TestStatus) (r : TestResult) (rs : list TestResult) :
  count_status s (r :: rs) =
  ((if TestStatus_eqb (status r) s then 1 else 0) + count_status s rs)%Z.
Proof.
  unfold count_status. simpl filter.
  destruct (TestStatus_eqb (status r) s).
  - simpl map. simpl fold_left. rewrite !sum_ones. lia.
  - rewrite !sum_ones. lia.
Qed.

Lemma count_status_nonneg (s : TestStatus) (rs : list TestResult) :
  (0 <= count_status s rs)%Z.
Proof. unfold count_status. rewrite sum_ones. lia. Qed.

Lemma counts_partition (rs : list TestResult) :
  Forall terminal_result rs ->
  len rs = (count_status PASSED rs + count_status FAILED rs
            + count_status ERROR rs + count_status SKIPPED rs)%Z.
Proof.
  induction 1 as [|r rs Hr _ IH].
  - reflexivity.
  - rewrite !count_status_cons. unfold len in *. simpl List.length.
    rewrite Nat2Z.inj_succ, IH.
    destruct Hr as [E|[E|[E|E]]]; rewrite E; cbn [TestStatus_eqb]; lia.
Qed.

(** C3. For every runner a program can hold (fresh, or after any number
    of [run_suite] calls, returned or raised), [get_summary] satisfies the
    summary invariant: the total is the sum of the four counts, every
    count is non-negative, the success rate is 0 when the total is 0 and
    passed / total * 100 otherwise. *)
Theorem get_summary_invariant :
  forall self : TestRunner,
    runner_state self ->
    (total (get_summary self) =
       passed (get_summary self) + failed (get_summary self)
       + errors (get_summary self) + skipped (get_summary self))%Z /\
    (0 <= passed (get_summary self))%Z /\
    (0 <= failed (get_summary self))%Z /\
    (0 <= errors (get_summary self))%Z /\
    (0 <= skipped (get_summary self))%Z /\
    (0 <= total (get_summary self))%Z /\
    (total (get_summary self) = 0%Z -> success_rate (get_summary self) = 0%Q) /\
    (total (get_summary self) <> 0%Z ->
       success_rate (get_summary self) =
       (inject_Z (passed (get_summary self))
          / inject_Z (total (get_summary self)) * 100)%Q).
Proof.
  intros self Hs. apply runner_state_terminal in Hs.
  unfold get_summary; simpl.
  repeat split; try apply count_status_nonneg.
  - now apply counts_partition.
  - unfold len. lia.
  - destruct (results self); [reflexivity|]. unfold len; simpl List.length. lia.
  - destruct (results self); [|reflexivity]. intros H; now elim H.
Qed.

(** ** file_size *)

Lemma validate_file_size_statted (w : world) (path : string) (size min_bytes : Z)
    (max_bytes : option Z) (t : nat) :
  stat_size w path = Ret size ->
  exists r : TestResult,
    validate_file_size w (VStr path) (VInt min_bytes) (opt_int max_bytes) t
    = (Ret r, S (S (S t))) /\
    status r = (if in_range size min_bytes max_bytes then PASSED else FAILED) /\
    details r = [("size", VInt size); ("min", VInt min_bytes);
                 ("max", opt_int max_bytes)].
Proof.
  intros Hstat.
  unfold validate_file_size, try_except, bind, lift, time_now, TestResult_new,
    datetime_now_isoformat, ret, in_range; simpl.
  rewrite Hstat; simpl.
  destruct (min_bytes <=? size)%Z; simpl.
  - destruct max_bytes as [m|]; simpl; eexists; split; try reflexivity; split; reflexivity.
  - eexists; split; [reflexivity|]; split; reflexivity.
Qed.

Lemma validate_file_size_stat_fails (w : world) (path : string) (e : exn)
    (min_bytes max_bytes : pyval) (t : nat) :
  stat_size w path = Raise e ->
  exists r : TestResult,
    validate_file_size w (VStr path) min_bytes max_bytes t = (Ret r, S (S (S t))) /\
    status r = ERROR /\ message r = exn_str e /\ details r = [].
Proof.
  intros Hstat.
  unfold validate_file_size, try_except, bind, lift, time_now, TestResult_new,
    datetime_now_isoformat, ret; simpl.
  rewrite Hstat; simpl.
  eexists; split; [reflexivity|]. repeat split; reflexivity.
Qed.

(** C4. For a path whose size can be read, [validate_file_size] with an
    integer lower bound and an optional integer upper bound returns
    [PASSED] exactly when the size lies between the bounds, both included
    (no upper limit when the upper bound is absent), and [FAILED]
    otherwise; a size one below the lower bound is [FAILED], and a size
    equal to the lower bound is [PASSED] (the upper bound, when given,
    being at least the lower one).  When the size cannot be read the
    status is [ERROR]. *)
Theorem file_size_passed_iff_in_range :
  forall (w : world) (path : string) (min_bytes : Z) (max_bytes : option Z)
         (t : nat),
    (forall size : Z,
        stat_size w path = Ret size ->
        exists (r : TestResult) (t' : nat),
          validate_file_size w (VStr path) (VInt min_bytes) (opt_int max_bytes) t
          = (Ret r, t') /\
          (status r = PASSED <->
             (min_bytes <= size /\
              forall m, max_bytes = Some m -> size <= m)%Z) /\
          (status r <> PASSED -> status r = FAILED) /\
          (size = (min_bytes - 1)%Z -> status r = FAILED) /\
          (size = min_bytes ->
           (forall m, max_bytes = Some m -> (min_bytes <= m)%Z) ->
           status r = PASSED)) /\
    (forall e : exn,
        stat_size w path = Raise e ->
        exists (r : TestResult) (t' : nat),
          validate_file_size w (VStr path) (VInt min_bytes) (opt_int max_bytes) t
          = (Ret r, t') /\
          status r = ERROR).
Proof.
  intros w path min_bytes max_bytes t. split.
  - intros size Hstat.
    destruct (validate_file_size_statted w path size min_bytes max_bytes t Hstat)
      as (r & Hr & Hs & _).
    exists r, (S (S (S t))). split; [exact Hr|]. rewrite Hs.
    assert (Hin : in_range size min_bytes max_bytes = true <->
                  (min_bytes <= size /\
                   forall m, max_bytes = Some m -> size <= m)%Z).
    { unfold in_range. rewrite andb_true_iff, Z.leb_le.
      destruct max_bytes as [m|].
      - rewrite Z.leb_le. split.
        + intros [H1 H2]; split; [exact H1|]. intros m' E; inversion E; subst; exact H2.
        + intros [H1 H2]; split; [exact H1|]. now apply H2.
      - split.
        + intros [H1 _]; split; [exact H1|]. discriminate.
        + intros [H1 _]; split; [exact H1|reflexivity]. }
    destruct (in_range size min_bytes max_bytes) eqn:E.
    + pose proof (proj1 Hin eq_refl) as Hb. split; [|split; [|split]].
      * split; [intros _; exact Hb | reflexivity].
      * intros H; now elim H.
      * intros ->. lia.
      * reflexivity.
    + assert (Hout : ~ (min_bytes <= size /\
                        forall m, max_bytes = Some m -> size <= m)%Z).
      { intros H. apply Hin in H. discriminate. }
      split; [|split; [|split]].
      * split; [discriminate | intros H; now elim Hout].
      * reflexivity.
      * reflexivity.
      * intros -> Hm. elim Hout. split; [lia | exact Hm].
  - intros e Hstat.
    destruct (validate_file_size_stat_fails w path e (VInt min_bytes)
                (opt_int max_bytes) t Hstat) as (r & Hr & Hs & _).
    exists r, (S (S (S t))). auto.
Qed.

(** ** json_schema *)

Lemma missing_keys_dict (d : pydict) (keys : list string) :
  missing_keys (map VStr keys) (VDict d) =
  Ret (map VStr (filter (fun k => negb (dict_has k d)) keys)).
Proof.
  induction keys as [|k keys IH]; simpl; [reflexivity|].
  rewrite IH; simpl. destruct (dict_has k d); reflexivity.
Qed.

Lemma filter_nil_iff {A : Type} (f : A -> bool) (l : list A) :
  filter f l = [] <-> forall x, In x l -> f x = false.
Proof.
  induction l as [|a l IH]; simpl.
  - split; [intros _ x []|reflexivity].
  - destruct (f a) eqn:E.
    + split; [discriminate|]. intros H. rewrite (H a) in E; [discriminate|now left].
    + rewrite IH. split.
      * intros H x [<-|Hx]; auto.
      * intros H x Hx. apply H. now right.
Qed.

(** C5. [validate_json_schema] on a file whose content is not valid JSON
    (decoding it raises) returns [ERROR], never [FAILED], with a message
    that starts "Invalid JSON: " for a JSON decoding error.  On a file that decodes to a JSON
    object, with a list of strings as required keys, it returns [PASSED]
    exactly when every required key is present and [FAILED] otherwise, and
    the details hold, under the key "missing", the required keys that are
    absent, in the order of the required keys. *)
Theorem json_schema_error_and_missing_keys :
  forall (w : world) (path : string) (required_keys : list string) (t : nat),
    (forall e : exn,
        load_json_file w (PathRef path) = Raise e ->
        exists (r : TestResult) (t' : nat),
          validate_json_schema w (VStr path) (VList (map VStr required_keys)) t
          = (Ret r, t') /\
          status r = ERROR /\
          (exn_type e = JSONDecodeError ->
           message r = "Invalid JSON: " ++ exn_str e)) /\
    (forall d : pydict,
        load_json_file w (PathRef path) = Ret (VDict d) ->
        exists (r : TestResult) (t' : nat),
          validate_json_schema w (VStr path) (VList (map VStr required_keys)) t
          = (Ret r, t') /\
          (status r = PASSED <->
             forall k, In k required_keys -> dict_has k d = true) /\
          (status r <> PASSED -> status r = FAILED) /\
          dict_get "missing" (details r) =
            Some (VList (map VStr
                           (filter (fun k => negb (dict_has k d)) required_keys)))).
Proof.
  intros w path required_keys t. split.
  - intros e Hload.
    unfold validate_json_schema, try_except, bind, lift, time_now,
      TestResult_new, datetime_now_isoformat, ret; simpl.
    rewrite Hload; simpl. unfold is_JSONDecodeError.
    destruct (exn_type e) eqn:He;
      (eexists; eexists; split; [reflexivity|]; split;
       [reflexivity | first [discriminate | intros _; reflexivity]]).
  - intros d Hload.
    unfold validate_json_schema, try_except, bind, lift, time_now,
      TestResult_new, datetime_now_isoformat, ret; simpl.
    rewrite Hload; simpl. rewrite missing_keys_dict; simpl.
    eexists; eexists; split; [reflexivity|]. simpl.
    rewrite length_map.
    set (missing := filter (fun k => negb (dict_has k d)) required_keys).
    assert (Hnil : missing = [] <->
                   forall k, In k required_keys -> dict_has k d = true).
    { unfold missing. rewrite filter_nil_iff. split; intros H k Hk.
      - apply H in Hk. now apply negb_false_iff in Hk.
      - apply negb_false_iff. now apply H. }
    destruct missing as [|m ms]; simpl.
    + split; [|split].
      * split; [intros _; now apply Hnil | reflexivity].
      * intros H; now elim H.
      * reflexivity.
    + split; [|split].
      * split; [discriminate|]. intros H. apply Hnil in H. discriminate.
      * reflexivity.
      * reflexivity.
Qed.

(** ** Unknown declaration types *)

Lemma prefix_refl (k : string) : String.prefix k k = true.
Proof.
  induction k as [|c k IH]; simpl; [reflexivity|].
  destruct (ascii_dec c c) as [_|N]; [exact IH | now elim N].
Qed.

Lemma str_contains_app (pre k : string) : str_contains k (pre ++ k) = true.
Proof.
  induction pre as [|c pre IH]; simpl.
  - destruct k as [|a k]; [reflexivity|].
    cbn [str_contains]. now rewrite prefix_refl.
  - rewrite IH. apply orb_true_r.
Qed.

(** C6. A declaration whose type is a string with no entry in the
    validator registry makes [run_test] return a result with status
    [ERROR], zero duration, the declaration's given name and the message
    "Unknown test type: " followed by the type string (which the message
    therefore contains); inside a suite the loop appends that result,
    named as the declaration, and goes on with the next declaration. *)
Theorem unknown_type_is_error_and_suite_continues :
  forall (w : world) (test_config : pydict) (ty : string) (t : nat),
    dict_get "type" test_config = Some (VStr ty) ->
    registry_find ty (validator_map w) = None ->
    exists r : TestResult,
      run_test w test_config t = (Ret r, S t) /\
      status r = ERROR /\
      duration r = 0%Q /\
      message r = "Unknown test type: " ++ ty /\
      str_contains ty (message r) = true /\
      (forall given : pyval,
          dict_get "name" test_config = Some given -> name r = given) /\
      (forall (self : TestRunner) (i : nat) (rest : list pydict),
          run_suite_loop w self i (test_config :: rest) t =
          run_suite_loop w
            (mkTestRunner
               (results self ++ [set_name r (test_name i test_config)])%list
               (start_time self) (end_time self))
            (S i) rest (S t)) /\
      (forall (given : pyval) (i : nat),
          dict_get "name" test_config = Some given ->
          name (set_name r (test_name i test_config)) = given).
Proof.
  intros w test_config ty t Hty Hreg.
  assert (Hrun : run_test w test_config t =
                 (Ret (mkTestResult
                         (dict_get_default "name" test_config (VStr "Unknown"))
                         ERROR 0%Q ("Unknown test type: " ++ ty) []
                         (now_isoformat w t)), S t)).
  { assert (Htype : dict_get_default "type" test_config VNone = VStr ty)
      by (unfold dict_get_default; now rewrite Hty).
    unfold run_test. rewrite Htype.
    unfold validator_map_get. cbn [py_hashable]. rewrite Hreg.
    reflexivity. }
  eexists. split; [exact Hrun|]. cbn [status duration message name].
  split; [reflexivity|]. split; [reflexivity|]. split; [reflexivity|].
  split; [apply str_contains_app|].
  split; [|split].
  - intros given Hn. unfold dict_get_default. now rewrite Hn.
  - intros self i rest. cbn [run_suite_loop]. rewrite Hrun. reflexivity.
  - intros given i Hn. unfold test_name, dict_get_default. now rewrite Hn.
Qed.

Lemma unknown_type_witness :
  exists r : TestResult,
    run_test studio nonexistent_decl 0 = (Ret r, 1) /\
    status r = ERROR /\
    duration r = 0%Q /\
    message r = "Unknown test type: nonexistent" /\
    str_contains "nonexistent" (message r) = true /\
    (forall given : pyval,
        dict_get "name" nonexistent_decl = Some given -> name r = given) /\
    (forall (self : TestRunner) (i : nat) (rest : list pydict),
        run_suite_loop studio self i (nonexistent_decl :: rest) 0 =
        run_suite_loop studio
          (mkTestRunner
             (results self ++ [set_name r (test_name i nonexistent_decl)])%list
             (start_time self) (end_time self))
          (S i) rest 1) /\
    (forall (given : pyval) (i : nat),
        dict_get "name" nonexistent_decl = Some given ->
        name (set_name r (test_name i nonexistent_decl)) = given).
Proof.
  apply (unknown_type_is_error_and_suite_continues studio nonexistent_decl
           "nonexistent" 0); reflexivity.
Defined.

(** ** Exceptions that leave the runner *)

(** C1 (what the code does at the failing inputs). [run_test] does not
    return a result for every declaration: in every world, a [file_format]
    declaration without [expected_ext] makes the keyword call raise
    [TypeError], and one whose [expected_ext] is the number 16 makes
    [validate_file_format], which has no exception handler, raise
    [AttributeError]; both exceptions leave [run_test], and a suite that
    holds such a declaration makes [run_suite] raise after the results
    gathered so far. *)
Theorem run_test_lets_exceptions_through :
  forall (w : world) (t : nat),
    run_test w missing_parameter_decl t =
      (Raise (mkExn TypeError
                "validate_file_format() missing 1 required positional argument: 'expected_ext'"),
       t) /\
    run_test w bad_parameter_decl t =
      (Raise (mkExn AttributeError "'int' object has no attribute 'startswith'"),
       S t) /\
    (forall self : TestRunner,
        exists (self' : TestRunner) (e : exn) (t' : nat),
          run_suite w self
            (mkTestSuite "plates" [nonexistent_decl; bad_parameter_decl] "" "") t
          = (self', Raise e, t') /\
          exn_type e = AttributeError /\
          List.length (results self') = 1).
Proof.
  intros w t. split; [reflexivity|]. split; [reflexivity|].
  intros self. eexists; eexists; eexists. split; [reflexivity|].
  split; reflexivity.
Qed.

(** The validators whose body is wrapped in a handler return a result for
    every argument, of any type, in every world. *)
Lemma validate_file_size_returns w path a b :
  returns (validate_file_size w path a b).
Proof. unfold validate_file_size. repeat returns_step. Qed.

Lemma validate_json_schema_returns w path k :
  returns (validate_json_schema w path k).
Proof. unfold validate_json_schema. repeat returns_step. Qed.

Lemma validate_checksum_returns w path h a :
  returns (validate_checksum w path h a).
Proof. unfold validate_checksum. repeat returns_step. Qed.

Lemma validate_video_codec_returns w path c :
  returns (validate_video_codec w path c).
Proof. unfold validate_video_codec. repeat returns_step. Qed.

Lemma validate_resolution_returns w path a b :
  returns (validate_resolution w path a b).
Proof. unfold validate_resolution. repeat returns_step. Qed.

(** The two validators without a handler return on a string path (and a
    string extension). *)
Lemma validate_file_exists_returns w (path : string) :
  returns (validate_file_exists w (VStr path)).
Proof.
  intros t.
  unfold validate_file_exists, bind, lift, time_now, TestResult_new,
    datetime_now_isoformat, ret; simpl.
  eexists; eexists. reflexivity.
Qed.

Lemma validate_file_format_returns w (path expected_ext : string) :
  returns (validate_file_format w (VStr path) (VStr expected_ext)).
Proof. intros t. rewrite validate_file_format_str. eexists; eexists. reflexivity. Qed.

(** ** Order and names of the results of a suite *)

(** When every declaration's dispatch returns, the loop appends one result
    per declaration, in order: the j-th appended result is a result of
    [run_test] on the j-th declaration, renamed after it. *)
Lemma run_suite_loop_returns (w : world) (tests : list pydict) :
  forall (self : TestRunner) (i t : nat),
    (forall d, In d tests -> returns (run_test w d)) ->
    exists (rs : list TestResult) (t' : nat),
      run_suite_loop w self i tests t =
        (mkTestRunner (results self ++ rs)%list (start_time self) (end_time self),
         Ret tt, t') /\
      List.length rs = List.length tests /\
      forall (j : nat) (d : pydict),
        nth_error tests j = Some d ->
        exists (r0 : TestResult) (t0 t1 : nat),
          run_test w d t0 = (Ret r0, t1) /\
          nth_error rs j = Some (set_name r0 (test_name (i + j) d)).
Proof.
  induction tests as [|d rest IH]; intros self i t Hret.
  - exists [], t. simpl. rewrite app_nil_r. destruct self; simpl.
    split; [reflexivity|]. split; [reflexivity|].
    intros [|j] d' H; discriminate.
  - destruct (Hret d (or_introl eq_refl) t) as (r & t1 & Er).
    destruct (IH (mkTestRunner (results self ++ [set_name r (test_name i d)])%list
                    (start_time self) (end_time self)) (S i) t1)
      as (rs & t' & Eloop & Hlen & Hnth).
    { intros d' Hd'. apply Hret. now right. }
    exists (set_name r (test_name i d) :: rs), t'.
    cbn [run_suite_loop]. rewrite Er, Eloop. cbn [results start_time end_time].
    rewrite <- app_assoc. cbn [app].
    split; [reflexivity|]. split; [simpl; now rewrite Hlen|].
    intros [|j] d' Hd'; cbn [nth_error] in *.
    + inversion Hd'; subst d'. exists r, t, t1. rewrite Nat.add_0_r. auto.
    + destruct (Hnth j d' Hd') as (r0 & t0 & t2 & E0 & En).
      exists r0, t0, t2. split; [exact E0|].
      rewrite En. now rewrite Nat.add_succ_r.
Qed.

(** C2 (as amended). For a suite of N declarations on each of which the
    dispatch returns, [run_suite] returns exactly N results, which are
    also the results the runner holds, in the order of the declarations:
    the i-th result is what [run_test] returned for the i-th declaration,
    renamed to the declaration's name when it has one and to "Test"
    followed by its 1-based position when it has none. *)
Theorem run_suite_results_follow_declarations :
  forall (w : world) (self : TestRunner) (suite : TestSuite) (t : nat),
    (forall d, In d (tests suite) -> returns (run_test w d)) ->
    exists (self' : TestRunner) (rs : list TestResult) (t' : nat),
      run_suite w self suite t = (self', Ret rs, t') /\
      results self' = rs /\
      List.length rs = List.length (tests suite) /\
      forall (i : nat) (d : pydict),
        nth_error (tests suite) i = Some d ->
        exists (r0 : TestResult) (t0 t1 : nat) (r : TestResult),
          run_test w d t0 = (Ret r0, t1) /\
          nth_error rs i = Some r /\
          status r = status r0 /\ duration r = duration r0 /\
          message r = message r0 /\ details r = details r0 /\
          (forall given, dict_get "name" d = Some given -> name r = given) /\
          (dict_get "name" d = None ->
           name r = VStr ("Test " ++ nat_to_string (S i))).
Proof.
  intros w self suite t Hret.
  destruct (run_suite_loop_returns w (tests suite)
              (mkTestRunner [] (time_time w t) (end_time self)) 1 (S t) Hret)
    as (rs & t' & Eloop & Hlen & Hnth).
  unfold run_suite. cbn [results start_time end_time] in *.
  rewrite Eloop. cbn [results start_time end_time app].
  eexists; exists rs; eexists. split; [reflexivity|].
  split; [reflexivity|]. split; [exact Hlen|].
  intros i d Hd. destruct (Hnth i d Hd) as (r0 & t0 & t1 & E0 & En).
  exists r0, t0, t1, (set_name r0 (test_name (S i) d)).
  split; [exact E0|]. split; [exact En|].
  cbn [set_name status duration message details name].
  repeat (split; [reflexivity|]).
  unfold test_name, dict_get_default. split.
  - intros given Hg. now rewrite Hg.
  - intros Hn. now rewrite Hn.
Qed.

Lemma plates_suite_returns :
  forall d, In d (tests plates_suite) -> returns (run_test studio d).
Proof.
  intros d [<-|[<-|[]]] t; cbv -[time_time now_isoformat Qminus];
    eexists; eexists; reflexivity.
Qed.

Lemma run_suite_results_witness :
  exists (self' : TestRunner) (rs : list TestResult) (t' : nat),
    run_suite studio TestRunner_new plates_suite 0 = (self', Ret rs, t') /\
    results self' = rs /\
    List.length rs = List.length (tests plates_suite) /\
    forall (i : nat) (d : pydict),
      nth_error (tests plates_suite) i = Some d ->
      exists (r0 : TestResult) (t0 t1 : nat) (r : TestResult),
        run_test studio d t0 = (Ret r0, t1) /\
        nth_error rs i = Some r /\
        status r = status r0 /\ duration r = duration r0 /\
        message r = message r0 /\ details r = details r0 /\
        (forall given, dict_get "name" d = Some given -> name r = given) /\
        (dict_get "name" d = None ->
         name r = VStr ("Test " ++ nat_to_string (S i))).
Proof.
  exact (run_suite_results_follow_declarations studio TestRunner_new
           plates_suite 0 plates_suite_returns).
Defined.

(** C2 (counterexample). The claim as stated fails on two suites of one
    declaration each.  The declaration of the first has no name: the one
    result [run_suite] returns is named "Test 1".  The declaration of the
    second leaves out a required parameter: [run_suite] raises and returns
    no results at all. *)
Lemma run_suite_default_name_and_raise :
  (exists (self' : TestRunner) (r : TestResult) (t' : nat),
      run_suite studio TestRunner_new
        (mkTestSuite "unnamed"
           [ [("type", VStr "file_exists");
              ("params", VDict [("path", VStr "/assets/plate.exr")])] ]
           "" "") 0
      = (self', Ret [r], t') /\
      dict_get "name" [("type", VStr "file_exists");
                       ("params", VDict [("path", VStr "/assets/plate.exr")])]
      = None /\
      name r = VStr "Test 1") /\
  (exists (self' : TestRunner) (e : exn) (t' : nat),
      run_suite studio TestRunner_new
        (mkTestSuite "incomplete" [missing_parameter_decl] "" "") 0
      = (self', Raise e, t') /\
      results self' = []).
Proof.
  split.
  - eexists; eexists; eexists. split; [reflexivity|]. split; reflexivity.
  - eexists; eexists; eexists. split; reflexivity.
Qed.

(** ** The probe-backed validators *)

Ltac run_validator :=
  unfold validate_video_codec, validate_resolution, try_except, bind, lift,
    probe, time_now, TestResult_new, datetime_now_isoformat, ret;
  cbn [Path obind].

(** The probe binary is absent: both validators skip. *)
Lemma probe_absent_is_skipped (w : world) (path : string) (e : exn)
    (expected_codec expected_width expected_height : pyval) (t : nat) :
  run_ffprobe w path = Raise e ->
  exn_type e = FileNotFoundError ->
  (exists r t',
      validate_video_codec w (VStr path) expected_codec t = (Ret r, t') /\
      status r = SKIPPED) /\
  (exists r t',
      validate_resolution w (VStr path) expected_width expected_height t
      = (Ret r, t') /\
      status r = SKIPPED).
Proof.
  intros Hrun He. split; run_validator; rewrite Hrun;
    unfold is_TimeoutExpired, is_FileNotFoundError; rewrite He;
    eexists; eexists; split; reflexivity.
Qed.

(** The probe does not complete for another reason (the timeout among
    them): both validators report an error. *)
Lemma probe_raises_is_error (w : world) (path : string) (e : exn)
    (expected_codec expected_width expected_height : pyval) (t : nat) :
  run_ffprobe w path = Raise e ->
  exn_type e <> FileNotFoundError ->
  (exists r t',
      validate_video_codec w (VStr path) expected_codec t = (Ret r, t') /\
      status r = ERROR) /\
  (exists r t',
      validate_resolution w (VStr path) expected_width expected_height t
      = (Ret r, t') /\
      status r = ERROR).
Proof.
  intros Hrun He. split; run_validator; rewrite Hrun;
    unfold is_TimeoutExpired, is_FileNotFoundError;
    destruct (exn_type e); try (now elim He);
    eexists; eexists; split; reflexivity.
Qed.

(** The probe succeeds and its output holds no video stream: both
    validators fail the check. *)
Lemma no_video_stream_is_failed (w : world) (path : string)
    (result : CompletedProcess) (data : pyval)
    (expected_codec expected_width expected_height : pyval) (t : nat) :
  run_ffprobe w path = Ret result ->
  returncode result = 0%Z ->
  json_loads w (stdout result) = Ret data ->
  find_video_stream data = Ret VNone ->
  (exists r t',
      validate_video_codec w (VStr path) expected_codec t = (Ret r, t') /\
      status r = FAILED /\ message r = "No video stream found") /\
  (exists r t',
      validate_resolution w (VStr path) expected_width expected_height t
      = (Ret r, t') /\
      status r = FAILED /\ message r = "No video stream found").
Proof.
  intros Hrun Hrc Hjson Hfind. split; run_validator; rewrite Hrun;
    try rewrite Hrc; cbn [Z.eqb negb]; rewrite Hjson, Hfind; cbn [py_truthy negb];
    eexists; eexists; split; try reflexivity; split; reflexivity.
Qed.

(** The probe exits with a non-zero status: [validate_video_codec] reports
    an error, whereas [validate_resolution] never looks at the exit status
    and goes by what the probe printed. *)
Lemma probe_exit_status (w : world) (path : string)
    (result : CompletedProcess) (data : pyval)
    (expected_codec expected_width expected_height : pyval) (t : nat) :
  run_ffprobe w path = Ret result ->
  returncode result <> 0%Z ->
  json_loads w (stdout result) = Ret data ->
  find_video_stream data = Ret VNone ->
  (exists r t',
      validate_video_codec w (VStr path) expected_codec t = (Ret r, t') /\
      status r = ERROR /\ message r = "ffprobe failed - is FFmpeg installed?") /\
  (exists r t',
      validate_resolution w (VStr path) expected_width expected_height t
      = (Ret r, t') /\
      status r = FAILED /\ message r = "No video stream found").
Proof.
  intros Hrun Hrc Hjson Hfind. split; run_validator; rewrite Hrun.
  - apply Z.eqb_neq in Hrc. rewrite Hrc. cbn [negb].
    eexists; eexists; split; try reflexivity; split; reflexivity.
  - rewrite Hjson, Hfind; cbn [py_truthy negb].
    eexists; eexists; split; try reflexivity; split; reflexivity.
Qed.

(** C7 (what the code does at the failing input). In the sample world the
    probe exits with status 1 on a clip it cannot open and prints an empty
    JSON object: [validate_video_codec] returns [ERROR], while
    [validate_resolution], which does not test the exit status, returns
    [FAILED] with "No video stream found". *)
Theorem resolution_ignores_probe_exit_status :
  run_ffprobe studio "/assets/missing.mov" = Ret (mkCompleted 1 empty_probe_output) /\
  (exists r t',
      validate_video_codec studio (VStr "/assets/missing.mov") VNone 0
      = (Ret r, t') /\
      status r = ERROR /\ message r = "ffprobe failed - is FFmpeg installed?") /\
  (exists r t',
      validate_resolution studio (VStr "/assets/missing.mov") VNone VNone 0
      = (Ret r, t') /\
      status r = FAILED /\ message r = "No video stream found").
Proof.
  split; [reflexivity|].
  apply (probe_exit_status studio "/assets/missing.mov"
           (mkCompleted 1 empty_probe_output) (VDict [])); try reflexivity.
  discriminate.
Qed.

(** ** Witness of the summary invariant *)

Lemma plates_runner_state : runner_state plates_runner.
Proof.
  unfold plates_runner.
  destruct (run_suite studio TestRunner_new plates_suite 0) as [[self' o] t'] eqn:E.
  eapply runner_ran; [apply runner_fresh | exact E].
Qed.

Example plates_summary :
  total (get_summary plates_runner) = 2%Z /\
  passed (get_summary plates_runner) = 2%Z /\
  success_rate (get_summary plates_runner) = (200 # 2)%Q.
Proof. vm_compute. repeat split. Qed.

Lemma get_summary_invariant_witness :
  (total (get_summary plates_runner) =
     passed (get_summary plates_runner) + failed (get_summary plates_runner)
     + errors (get_summary plates_runner) + skipped (get_summary plates_runner))%Z /\
  (0 <= passed (get_summary plates_runner))%Z /\
  (0 <= failed (get_summary plates_runner))%Z /\
  (0 <= errors (get_summary plates_runner))%Z /\
  (0 <= skipped (get_summary plates_runner))%Z /\
  (0 <= total (get_summary plates_runner))%Z /\
  (total (get_summary plates_runner) = 0%Z ->
   success_rate (get_summary plates_runner) = 0%Q) /\
  (total (get_summary plates_runner) <> 0%Z ->
   success_rate (get_summary plates_runner) =
   (inject_Z (passed (get_summary plates_runner))
      / inject_Z (total (get_summary plates_runner)) * 100)%Q).
Proof.
  exact (get_summary_invariant plates_runner plates_runner_state).
Defined.

(** ** The rules on which both probe-backed validators agree *)

(** X2. For a string path, [validate_video_codec] and
    [validate_resolution] agree on three outcomes of the probe: when the
    probe binary is absent ([FileNotFoundError]) both return [SKIPPED];
    when running the probe raises anything else, the timeout included,
    both return [ERROR]; when the probe exits with status 0 and its output
    decodes to data without a video stream, both return [FAILED]. *)
Theorem probe_rules_shared :
  forall (w : world) (path : string)
         (expected_codec expected_width expected_height : pyval) (t : nat),
    (forall e : exn,
        run_ffprobe w path = Raise e ->
        exn_type e = FileNotFoundError ->
        (exists r t',
            validate_video_codec w (VStr path) expected_codec t = (Ret r, t') /\
            status r = SKIPPED) /\
        (exists r t',
            validate_resolution w (VStr path) expected_width expected_height t
            = (Ret r, t') /\
            status r = SKIPPED)) /\
    (forall e : exn,
        run_ffprobe w path = Raise e ->
        exn_type e <> FileNotFoundError ->
        (exists r t',
            validate_video_codec w (VStr path) expected_codec t = (Ret r, t') /\
            status r = ERROR) /\
        (exists r t',
            validate_resolution w (VStr path) expected_width expected_height t
            = (Ret r, t') /\
            status r = ERROR)) /\
    (forall (result : CompletedProcess) (data : pyval),
        run_ffprobe w path = Ret result ->
        returncode result = 0%Z ->
        json_loads w (stdout result) = Ret data ->
        find_video_stream data = Ret VNone ->
        (exists r t',
            validate_video_codec w (VStr path) expected_codec t = (Ret r, t') /\
            status r = FAILED /\ message r = "No video stream found") /\
        (exists r t',
            validate_resolution w (VStr path) expected_width expected_height t
            = (Ret r, t') /\
            status r = FAILED /\ message r = "No video stream found")).
Proof.
  intros w path expected_codec expected_width expected_height t.
  split; [|split].
  - intros e Hrun He. now apply (probe_absent_is_skipped w path e).
  - intros e Hrun He. now apply (probe_raises_is_error w path e).
  - intros result data Hrun Hrc Hjson Hfind.
    now apply (no_video_stream_is_failed w path result data).
Qed.

Example probe_absent_in_bare_world :
  exists r1 r2 t1 t2,
    validate_video_codec bare (VStr "/assets/clip.mov") (VStr "h264") 0 = (Ret r1, t1) /\
    validate_resolution bare (VStr "/assets/clip.mov") (VInt 1920) VNone 0 = (Ret r2, t2) /\
    status r1 = SKIPPED /\ status r2 = SKIPPED.
Proof. do 4 eexists. repeat split; reflexivity. Qed.

Example probe_times_out_in_stalled_world :
  exists r1 r2 t1 t2,
    validate_video_codec stalled (VStr "/assets/clip.mov") VNone 0 = (Ret r1, t1) /\
    validate_resolution stalled (VStr "/assets/clip.mov") VNone VNone 0 = (Ret r2, t2) /\
    status r1 = ERROR /\ message r1 = "ffprobe timed out" /\ status r2 = ERROR.
Proof. do 4 eexists. repeat split; reflexivity. Qed.

Example probe_reads_clip :
  exists r1 r2 t1 t2,
    validate_video_codec studio (VStr "/assets/clip.mov") (VStr "H264") 0 = (Ret r1, t1) /\
    validate_resolution studio (VStr "/assets/clip.mov") (VInt 1920) (VInt 1080) 0
    = (Ret r2, t2) /\
    status r1 = PASSED /\ message r1 = "Codec: h264 (expected: H264)" /\
    status r2 = PASSED /\ message r2 = "Resolution: 1920x1080".
Proof. vm_compute. do 4 eexists. repeat split; reflexivity. Qed.

(** ** Validators that always return *)

Lemma returns_post {A : Type} (P : A -> Prop) (c : M A) :
  returns c -> post P c ->
  forall t : nat, exists (a : A) (t' : nat), c t = (Ret a, t') /\ P a.
Proof.
  intros Hr Hp t. destruct (Hr t) as (a & t' & E).
  exists a, t'. split; [exact E|]. exact (Hp t a t' E).
Qed.

(** X1. The five validators whose body is wrapped in an exception handler
    ([validate_file_size], [validate_json_schema], [validate_checksum],
    [validate_video_codec], [validate_resolution]) return exactly one
    result, with a terminal status, whatever the values and types of their
    arguments and whatever the world does: no exception leaves them. *)
Theorem handled_validators_always_return :
  forall (w : world) (path a b : pyval) (t : nat),
    (exists r t', validate_file_size w path a b t = (Ret r, t') /\
                  terminal (status r)) /\
    (exists r t', validate_json_schema w path a t = (Ret r, t') /\
                  terminal (status r)) /\
    (exists r t', validate_checksum w path a b t = (Ret r, t') /\
                  terminal (status r)) /\
    (exists r t', validate_video_codec w path a t = (Ret r, t') /\
                  terminal (status r)) /\
    (exists r t', validate_resolution w path a b t = (Ret r, t') /\
                  terminal (status r)).
Proof.
  intros w path a b t.
  split; [|split; [|split; [|split]]].
  - apply (returns_post terminal_result);
      [apply validate_file_size_returns | apply validate_file_size_terminal].
  - apply (returns_post terminal_result);
      [apply validate_json_schema_returns | apply validate_json_schema_terminal].
  - apply (returns_post terminal_result);
      [apply validate_checksum_returns | apply validate_checksum_terminal].
  - apply (returns_post terminal_result);
      [apply validate_video_codec_returns | apply validate_video_codec_terminal].
  - apply (returns_post terminal_result);
      [apply validate_resolution_returns | apply validate_resolution_terminal].
Qed.

Example file_size_with_wrong_types :
  exists r t',
    validate_file_size studio (VInt 3) (VStr "big") (VList []) 0 = (Ret r, t') /\
    status r = ERROR /\
    message r = "expected str, bytes or os.PathLike object, not int".
Proof. do 2 eexists. repeat split; reflexivity. Qed.

(** ** Further evaluations in the sample world *)

Example file_size_at_the_boundary :
  exists r1 r2 r3 t1 t2 t3,
    validate_file_size studio (VStr "/assets/plate.exr") (VInt 2048) VNone 0 = (Ret r1, t1) /\
    validate_file_size studio (VStr "/assets/plate.exr") (VInt 2049) VNone 0 = (Ret r2, t2) /\
    validate_file_size studio (VStr "/assets/gone.exr") (VInt 0) VNone 0 = (Ret r3, t3) /\
    status r1 = PASSED /\
    message r1 = "Size: 2,048 bytes (min: 2,048, max: unlimited)" /\
    status r2 = FAILED /\ status r3 = ERROR.
Proof. vm_compute. do 6 eexists. repeat split; reflexivity. Qed.

Example json_schema_missing_version :
  exists r1 r2 t1 t2,
    validate_json_schema studio (VStr "/assets/shot.json")
      (VList [VStr "version"; VStr "name"]) 0 = (Ret r1, t1) /\
    validate_json_schema studio (VStr "/assets/broken.json")
      (VList [VStr "version"; VStr "name"]) 0 = (Ret r2, t2) /\
    status r1 = FAILED /\
    dict_get "missing" (details r1) = Some (VList [VStr "version"]) /\
    message r1 = "Missing keys: ['version']" /\
    status r2 = ERROR.
Proof. vm_compute. do 4 eexists. repeat split; reflexivity. Qed.

Example file_format_of_a_missing_file :
  path_exists studio "/assets/gone.EXR" = false /\
  exists r t',
    validate_file_format studio (VStr "/assets/gone.EXR") (VStr ".exr") 0 = (Ret r, t') /\
    status r = PASSED.
Proof. split; [reflexivity|]. vm_compute. do 2 eexists. split; reflexivity. Qed.

(** ** JSON text: strings and numbers *)

Lemma append_assoc (a b c : string) : (a ++ b) ++ c = a ++ (b ++ c).
Proof. induction a as [|x a IH]; simpl; [reflexivity|]. now rewrite IH. Qed.

Lemma append_nil_r (a : string) : a ++ "" = a.
Proof. induction a as [|x a IH]; simpl; [reflexivity|]. now rewrite IH. Qed.

Lemma append_length (a b : string) :
  String.length (a ++ b) = String.length a + String.length b.
Proof. induction a as [|x a IH]; simpl; [reflexivity|]. now rewrite IH. Qed.

Lemma skip_ws_spaces (n : nat) (s : string) : skip_ws (spaces n ++ s) = skip_ws s.
Proof. induction n as [|n IH]; simpl; [reflexivity|exact IH]. Qed.

Lemma skip_ws_newline_indent (level : nat) (s : string) :
  skip_ws (newline_indent level ++ s) = skip_ws s.
Proof. unfold newline_indent. simpl. apply skip_ws_spaces. Qed.

(** Reading back one escaped character *)
Lemma scan_string_escape_char (c : ascii) (s : string) :
  scan_string (escape_char c ++ s) =
  match scan_string s with
  | Some (str, r) => Some (String c str, r)
  | None => None
  end.
Proof.
  destruct c as [[] [] [] [] [] [] [] []]; reflexivity.
Qed.

Lemma scan_string_escape_chars (s rest : string) :
  scan_string (escape_chars s ++ String dquote rest) = Some (s, rest).
Proof.
  induction s as [|c s IH]; simpl.
  - reflexivity.
  - rewrite append_assoc, scan_string_escape_char, IH. reflexivity.
Qed.

(** A string literal decodes to the string it encodes. *)
Lemma scan_string_encode (s rest : string) :
  scan_string (escape_chars s ++ String dquote "" ++ rest) = Some (s, rest).
Proof. apply scan_string_escape_chars. Qed.

Lemma take_digits_app (s rest ds r : string) :
  take_digits rest = ("", rest) ->
  take_digits s = (ds, r) ->
  take_digits (s ++ rest) = (ds, r ++ rest).
Proof.
  intros Hstop. revert ds r. induction s as [|c s IH]; intros ds r; simpl.
  - intros E; inversion E; subst; simpl. exact Hstop.
  - destruct (is_digit c).
    + destruct (take_digits s) as [ds' r'] eqn:E.
      intros H; inversion H; subst.
      rewrite (IH ds' r eq_refl). reflexivity.
    + intros H; inversion H; subst. reflexivity.
Qed.

Lemma take_digits_stops (rest : string) :
  number_stops rest = true -> take_digits rest = ("", rest).
Proof.
  destruct rest as [|c rest]; [reflexivity|]. simpl.
  destruct (is_digit c); [discriminate|reflexivity].
Qed.

(** The integer part of a text is still matched when the text is followed
    by one that does not start with a digit. *)
Lemma match_integer_app (s rest integer r : string) :
  take_digits rest = ("", rest) ->
  match_integer s = Some (integer, r) ->
  match_integer (s ++ rest) = Some (integer, r ++ rest).
Proof.
  intros Hstop. unfold match_integer.
  assert (Hbody : forall sign s0,
             match s0 with
             | String c r' =>
                 if Ascii.eqb c "0" then Some (sign ++ "0", r')
                 else if is_digit c
                      then let (ds, r'') := take_digits r' in
                           Some (sign ++ String c ds, r'')
                      else None
             | EmptyString => None
             end = Some (integer, r) ->
             match s0 ++ rest with
             | String c r' =>
                 if Ascii.eqb c "0" then Some (sign ++ "0", r')
                 else if is_digit c
                      then let (ds, r'') := take_digits r' in
                           Some (sign ++ String c ds, r'')
                      else None
             | EmptyString => None
             end = Some (integer, r ++ rest)).
  { intros sign [|c s0]; [discriminate|]. simpl.
    destruct (Ascii.eqb c "0").
    - intros H; inversion H; subst. reflexivity.
    - destruct (is_digit c); [|discriminate].
      destruct (take_digits s0) as [ds r'] eqn:E.
      intros H; inversion H; subst.
      rewrite (take_digits_app s0 rest ds r Hstop E). reflexivity. }
  destruct s as [|c s]; [discriminate|]. simpl.
  destruct (Ascii.eqb c "-").
  - apply Hbody.
  - apply (Hbody "" (String c s)).
Qed.

Lemma match_frac_app (s rest frac r : string) :
  number_stops rest = true ->
  match_frac s = (frac, r) ->
  match_frac (s ++ rest) = (frac, r ++ rest).
Proof.
  intros Hstop. unfold match_frac. destruct s as [|c s]; simpl.
  - intros H; inversion H; subst; simpl.
    destruct rest as [|c rest]; [reflexivity|]. simpl in Hstop.
    destruct (Ascii.eqb c "."); [|reflexivity].
    rewrite !orb_true_r in Hstop. simpl in Hstop.
    destruct (is_digit c); discriminate.
  - destruct (Ascii.eqb c "."); [|intros H; inversion H; subst; reflexivity].
    destruct (take_digits s) as [ds r'] eqn:E.
    rewrite (take_digits_app s rest ds r' (take_digits_stops rest Hstop) E).
    destruct ds; intros H; inversion H; subst; reflexivity.
Qed.

Lemma number_stops_sign (c : ascii) (rest : string) :
  number_stops (String c rest) = true ->
  Ascii.eqb c "-" || Ascii.eqb c "+" = false.
Proof.
  simpl. destruct (Ascii.eqb c "-"), (Ascii.eqb c "+"); rewrite ?orb_true_r;
    simpl; intros H; try discriminate; reflexivity.
Qed.

Lemma number_stops_exp (c : ascii) (rest : string) :
  number_stops (String c rest) = true ->
  Ascii.eqb c "e" || Ascii.eqb c "E" = false.
Proof.
  simpl. destruct (Ascii.eqb c "e"), (Ascii.eqb c "E"); rewrite ?orb_true_r;
    simpl; intros H; try discriminate; reflexivity.
Qed.

Lemma match_exp_app (s rest exp r : string) :
  number_stops rest = true ->
  match_exp s = (exp, r) ->
  match_exp (s ++ rest) = (exp, r ++ rest).
Proof.
  intros Hstop. unfold match_exp. destruct s as [|c s]; simpl.
  - intros H; inversion H; subst; simpl.
    destruct rest as [|c rest]; [reflexivity|].
    rewrite (number_stops_exp c rest Hstop). reflexivity.
  - destruct (Ascii.eqb c "e" || Ascii.eqb c "E");
      [|intros H; inversion H; subst; reflexivity].
    destruct s as [|c1 s]; simpl.
    + intros H; inversion H; subst; simpl.
      destruct rest as [|c2 rest]; [reflexivity|].
      rewrite (number_stops_sign c2 rest Hstop).
      rewrite (take_digits_stops (String c2 rest) Hstop).
      reflexivity.
    + destruct (Ascii.eqb c1 "-" || Ascii.eqb c1 "+").
      * destruct (take_digits s) as [ds r'] eqn:E.
        rewrite (take_digits_app s rest ds r' (take_digits_stops rest Hstop) E).
        destruct ds; intros H; inversion H; subst; reflexivity.
      * destruct (take_digits (String c1 s)) as [ds r'] eqn:E.
        change (String c1 (s ++ rest)) with (String c1 s ++ rest).
        rewrite (take_digits_app (String c1 s) rest ds r' (take_digits_stops rest Hstop) E).
        destruct ds; intros H; inversion H; subst; reflexivity.
Qed.

Lemma take_digits_split (s ds r : string) :
  take_digits s = (ds, r) -> s = ds ++ r.
Proof.
  revert ds r. induction s as [|c s IH]; intros ds r; simpl.
  - intros H; inversion H; reflexivity.
  - destruct (is_digit c).
    + destruct (take_digits s) as [ds' r'] eqn:E.
      intros H; inversion H; subst. simpl. f_equal. now apply IH.
    + intros H; inversion H; reflexivity.
Qed.

Lemma match_integer_split (s integer r : string) :
  match_integer s = Some (integer, r) -> s = integer ++ r.
Proof.
  unfold match_integer.
  assert (Hbody : forall sign s0,
             match s0 with
             | String c r' =>
                 if Ascii.eqb c "0" then Some (sign ++ "0", r')
                 else if is_digit c
                      then let (ds, r'') := take_digits r' in
                           Some (sign ++ String c ds, r'')
                      else None
             | EmptyString => None
             end = Some (integer, r) -> sign ++ s0 = integer ++ r).
  { intros sign [|c s0]; [discriminate|].
    destruct (Ascii.eqb_spec c "0") as [->|_].
    - intros H; inversion H; subst. now rewrite append_assoc.
    - destruct (is_digit c); [|discriminate].
      destruct (take_digits s0) as [ds r'] eqn:E.
      intros H; inversion H; subst.
      rewrite append_assoc. simpl. now rewrite (take_digits_split s0 ds r E). }
  destruct s as [|c s]; [discriminate|].
  destruct (Ascii.eqb_spec c "-") as [->|_].
  - apply (Hbody "-" s).
  - apply (Hbody "" (String c s)).
Qed.

Lemma match_frac_split (s frac r : string) :
  match_frac s = (frac, r) -> s = frac ++ r.
Proof.
  unfold match_frac. destruct s as [|c s]; [intros H; inversion H; reflexivity|].
  destruct (Ascii.eqb c "."); [|intros H; inversion H; reflexivity].
  destruct (take_digits s) as [ds r'] eqn:E.
  apply take_digits_split in E.
  destruct ds; intros H; inversion H; subst; reflexivity.
Qed.

Lemma match_exp_split (s exp r : string) :
  match_exp s = (exp, r) -> s = exp ++ r.
Proof.
  unfold match_exp. destruct s as [|c s]; [intros H; inversion H; reflexivity|].
  destruct (Ascii.eqb c "e" || Ascii.eqb c "E");
    [|intros H; inversion H; reflexivity].
  destruct s as [|c1 s].
  - simpl. intros H; inversion H; reflexivity.
  - destruct (Ascii.eqb c1 "-" || Ascii.eqb c1 "+").
    + destruct (take_digits s) as [ds r'] eqn:E.
      apply take_digits_split in E.
      destruct ds; intros H; inversion H; subst; reflexivity.
    + destruct (take_digits (String c1 s)) as [ds r'] eqn:E.
      apply take_digits_split in E.
      destruct ds; intros H; inversion H; subst; simpl; now rewrite E.
Qed.

(** The decimal digits of a number are digits. *)
Lemma take_digits_uint (d : Decimal.uint) :
  take_digits (NilEmpty.string_of_uint d) = (NilEmpty.string_of_uint d, "").
Proof.
  induction d; simpl; try rewrite IHd; reflexivity.
Qed.

Lemma to_uint_unorm (p : positive) :
  Decimal.unorm (Pos.to_uint p) = Pos.to_uint p.
Proof.
  rewrite <- (DecimalPos.Unsigned.to_of (Pos.to_uint p)).
  rewrite DecimalPos.Unsigned.of_to. reflexivity.
Qed.

(** The decimal text of a positive number starts with a non-zero digit. *)
Lemma to_uint_head (p : positive) :
  exists (c : ascii) (u : Decimal.uint),
    NilZero.string_of_uint (Pos.to_uint p) = String c (NilEmpty.string_of_uint u) /\
    is_digit c = true /\ Ascii.eqb c "0" = false /\ Ascii.eqb c "-" = false.
Proof.
  pose proof (to_uint_unorm p) as Hn.
  pose proof (DecimalPos.Unsigned.to_uint_nonzero p) as Hz.
  destruct (Pos.to_uint p) as [|u|u|u|u|u|u|u|u|u|u] eqn:E;
    try (eexists; exists u; simpl; repeat split; reflexivity).
  - now elim (DecimalPos.Unsigned.to_uint_nonnil p).
  - exfalso. rewrite DecimalFacts.unorm_D0 in Hn.
    destruct u as [|u'|u'|u'|u'|u'|u'|u'|u'|u'|u'] eqn:Eu;
      try (pose proof (DecimalFacts.nb_digits_unorm u) as Hd;
           subst u; rewrite Hn in Hd; simpl in Hd;
           specialize (Hd ltac:(discriminate)); lia).
    now elim Hz.
Qed.

Lemma match_integer_Z (z : Z) :
  match_integer (Z_to_string z) = Some (Z_to_string z, "").
Proof.
  unfold Z_to_string. destruct z as [|p|p]; simpl Z.to_int.
  - reflexivity.
  - simpl NilZero.string_of_int.
    destruct (to_uint_head p) as (c & u & E & Hd & H0 & Hm).
    rewrite E. unfold match_integer. rewrite Hm, H0, Hd, take_digits_uint.
    reflexivity.
  - simpl NilZero.string_of_int.
    destruct (to_uint_head p) as (c & u & E & Hd & H0 & Hm).
    rewrite E. unfold match_integer.
    change (Ascii.eqb "-" "-") with true. cbv iota.
    rewrite H0, Hd, take_digits_uint. reflexivity.
Qed.

Lemma int_of_string_Z (z : Z) :
  NilZero.int_of_string (Z_to_string z) = Some (Z.to_int z).
Proof.
  unfold Z_to_string. apply NilZero.isi.
  - destruct z as [|p|p]; simpl; try discriminate.
    intros H; inversion H as [H1].
    now elim (DecimalPos.Unsigned.to_uint_nonnil p).
  - destruct z as [|p|p]; simpl; try discriminate.
    intros H; inversion H as [H1].
    now elim (DecimalPos.Unsigned.to_uint_nonnil p).
Qed.

Section JsonNumbers.

Variable ff : float_format.

(** An integer is read back from its decimal text. *)
Lemma scan_number_int (z : Z) (rest : string) :
  number_stops rest = true ->
  scan_number ff (Z_to_string z ++ rest) = Some (JInt z, rest).
Proof.
  intros Hstop. unfold scan_number.
  rewrite (match_integer_app _ rest _ _ (take_digits_stops rest Hstop)
             (match_integer_Z z)).
  rewrite (match_frac_app "" rest "" "" Hstop eq_refl).
  rewrite (match_exp_app "" rest "" "" Hstop eq_refl).
  simpl. rewrite int_of_string_Z, DecimalZ.of_to. reflexivity.
Qed.

(** A float of the format is read back from its text. *)
Lemma scan_number_float (q : Q) (rest : string) :
  float_format_ok ff ->
  is_float ff q ->
  number_stops rest = true ->
  scan_number ff (float_repr ff q ++ rest) = Some (JFloat q, rest).
Proof.
  intros [Hlit Hread] Hq Hstop. specialize (Hlit q Hq). specialize (Hread q Hq).
  unfold float_literal in Hlit. unfold scan_number.
  destruct (match_integer (float_repr ff q)) as [[integer r]|] eqn:Ei;
    [|discriminate].
  destruct (match_frac r) as [frac r1] eqn:Ef.
  destruct (match_exp r1) as [exp r2] eqn:Ee.
  apply andb_true_iff in Hlit. destruct Hlit as [Hr2 Hfe].
  apply String.eqb_eq in Hr2. subst r2.
  rewrite (match_integer_app _ rest _ _ (take_digits_stops rest Hstop) Ei).
  rewrite (match_frac_app _ rest _ _ Hstop Ef).
  rewrite (match_exp_app _ rest _ _ Hstop Ee).
  apply negb_true_iff in Hfe. rewrite Hfe.
  assert (Etext : integer ++ frac ++ exp = float_repr ff q).
  { rewrite (match_integer_split _ _ _ Ei), (match_frac_split _ _ _ Ef),
      (match_exp_split _ _ _ Ee), append_nil_r. reflexivity. }
  rewrite Etext, Hread. reflexivity.
Qed.

Lemma match_integer_head (s integer r : string) :
  match_integer s = Some (integer, r) ->
  exists (c : ascii) (s' : string),
    s = String c s' /\ is_digit c || Ascii.eqb c "-" = true.
Proof.
  unfold match_integer. destruct s as [|c s]; [discriminate|].
  intros H. exists c, s. split; [reflexivity|].
  destruct (Ascii.eqb c "-"); [apply orb_true_r|].
  destruct (Ascii.eqb_spec c "0") as [->|_]; [reflexivity|].
  destruct (is_digit c); [reflexivity|discriminate].
Qed.

(** A text that starts with a digit or a minus sign is read as a number. *)
Lemma scan_once_number (fuel : nat) (c : ascii) (s : string) :
  is_digit c || Ascii.eqb c "-" = true ->
  scan_once ff (S fuel) (String c s) = scan_number ff (String c s).
Proof.
  destruct c as [[] [] [] [] [] [] [] []]; intros H;
    first [discriminate H | reflexivity].
Qed.

End JsonNumbers.

(** ** JSON text: values *)

Lemma skip_ws_head (c : ascii) (s : string) :
  is_ws c = false -> skip_ws (String c s) = String c s.
Proof. intros H. simpl. now rewrite H. Qed.

Lemma digit_head_plain (c : ascii) :
  is_digit c || Ascii.eqb c "-" = true ->
  is_ws c = false /\ Ascii.eqb c "]" = false.
Proof.
  destruct c as [[] [] [] [] [] [] [] []]; intros H;
    first [discriminate H | split; reflexivity].
Qed.

Lemma concat_cons2 (sep x y : string) (l : list string) :
  String.concat sep (x :: y :: l) = x ++ sep ++ String.concat sep (y :: l).
Proof. reflexivity. Qed.

Lemma dict_set_fresh (k : string) (v : json) (d : list (string * json)) :
  ~ In k (map fst d) -> dict_set k v d = (d ++ [(k, v)])%list.
Proof.
  induction d as [|[k' v'] d IH]; simpl; intros Hk; [reflexivity|].
  destruct (String.eqb_spec k k') as [->|_].
  - elim Hk. now left.
  - rewrite IH; [reflexivity|]. intros H; apply Hk; now right.
Qed.

Lemma dict_of_pairs_acc (pairs acc : list (string * json)) :
  NoDup (map fst (acc ++ pairs)%list) ->
  fold_left (fun d kv => dict_set (fst kv) (snd kv) d) pairs acc
  = (acc ++ pairs)%list.
Proof.
  revert acc. induction pairs as [|[k v] pairs IH]; intros acc Hnd; simpl.
  - now rewrite app_nil_r.
  - rewrite dict_set_fresh.
    + rewrite IH; rewrite <- app_assoc; [reflexivity|exact Hnd].
    + rewrite map_app in Hnd. simpl in Hnd.
      apply NoDup_remove_2 in Hnd. intros H. apply Hnd.
      apply in_or_app. now left.
Qed.

(** Building a dict from pairs with distinct keys keeps the pairs. *)
Lemma dict_of_pairs_distinct (pairs : list (string * json)) :
  NoDup (map fst pairs) -> dict_of_pairs pairs = pairs.
Proof. intros H. unfold dict_of_pairs. now rewrite dict_of_pairs_acc. Qed.

Lemma json_size_list (xs : list json) :
  json_size (JList xs) = S (elements_size xs).
Proof.
  reflexivity.
Qed.

Lemma json_size_dict (kvs : list (string * json)) :
  json_size (JDict kvs) = S (members_size kvs).
Proof.
  reflexivity.
Qed.

Lemma json_size_pos (v : json) : 1 <= json_size v.
Proof. destruct v; simpl; lia. Qed.

Section JsonRoundTrip.

Variable ff : float_format.
Hypothesis ff_ok : float_format_ok ff.

Lemma float_repr_head (q : Q) :
  is_float ff q ->
  exists (c : ascii) (s : string),
    float_repr ff q = String c s /\ is_digit c || Ascii.eqb c "-" = true.
Proof.
  intros Hq. destruct ff_ok as [Hlit _]. specialize (Hlit q Hq).
  unfold float_literal in Hlit.
  destruct (match_integer (float_repr ff q)) as [[integer r]|] eqn:E;
    [|discriminate].
  exact (match_integer_head _ _ _ E).
Qed.

Lemma Z_to_string_head (z : Z) :
  exists (c : ascii) (s : string),
    Z_to_string z = String c s /\ is_digit c || Ascii.eqb c "-" = true.
Proof. exact (match_integer_head _ _ _ (match_integer_Z z)). Qed.

(** The text of a value starts with a character that is neither white
    space nor a closing bracket. *)
Lemma json_encode_head (level : nat) (v : json) :
  json_wf ff v ->
  exists (c : ascii) (s : string),
    json_encode ff level v = String c s /\
    is_ws c = false /\ Ascii.eqb c "]" = false.
Proof.
  intros Hwf. destruct v as [|[]|z|q|s|[|x xs]|[|kv kvs]];
    try (eexists; eexists; split; [reflexivity|split; reflexivity]).
  - destruct (Z_to_string_head z) as (c & s & E & Hc).
    exists c, s. split; [exact E|]. now apply digit_head_plain.
  - inversion Hwf as [| | |q' Hq| | |]; subst.
    destruct (float_repr_head q Hq) as (c & s & E & Hc).
    exists c, s. split; [exact E|]. now apply digit_head_plain.
Qed.

Lemma skip_ws_encode (level : nat) (v : json) (more : string) :
  json_wf ff v ->
  skip_ws (json_encode ff level v ++ more) = json_encode ff level v ++ more.
Proof.
  intros Hwf. destruct (json_encode_head level v Hwf) as (c & s & E & Hws & _).
  rewrite E. simpl. now rewrite Hws.
Qed.

Lemma elements_head (level : nat) (x : json) (xs : list json) (more : string) :
  json_wf ff x ->
  exists (c : ascii) (s : string),
    String.concat ("," ++ newline_indent level)
      (map (json_encode ff level) (x :: xs)) ++ more = String c s /\
    is_ws c = false /\ Ascii.eqb c "]" = false.
Proof.
  intros Hwf. destruct (json_encode_head level x Hwf) as (c & s & E & Hws & Hb).
  destruct xs as [|y xs].
  - simpl. rewrite E. exists c, (s ++ more). auto.
  - simpl map. rewrite concat_cons2, E. simpl.
    eexists; eexists. split; [reflexivity|]. auto.
Qed.

(** Scanning the text of a value gives the value back, and the text that
    follows it; likewise for the elements of a list and the members of a
    dict up to the closing bracket. *)
Lemma scan_round_trip (fuel : nat) :
  (forall (v : json) (level : nat) (rest : string),
      json_wf ff v -> json_size v <= fuel -> number_stops rest = true ->
      scan_once ff fuel (json_encode ff level v ++ rest) = Some (v, rest)) /\
  (forall (xs : list json) (level closing : nat) (rest : string),
      xs <> [] -> Forall (json_wf ff) xs -> elements_size xs <= fuel ->
      scan_elements ff fuel
        (String.concat ("," ++ newline_indent level)
           (map (json_encode ff level) xs)
           ++ newline_indent closing ++ "]" ++ rest)
      = Some (xs, rest)) /\
  (forall (kvs : list (string * json)) (level closing : nat) (rest : string),
      kvs <> [] -> Forall (fun kv => json_wf ff (snd kv)) kvs ->
      members_size kvs <= fuel ->
      scan_members ff fuel
        (String.concat ("," ++ newline_indent level)
           (map (fun kv : string * json =>
                   let (k, x) := kv in
                   encode_string k ++ ": " ++ json_encode ff level x) kvs)
           ++ newline_indent closing ++ "}" ++ rest)
      = Some (kvs, rest)).
Proof.
  induction fuel as [|fuel [IHv [IHe IHm]]].
  { split; [|split].
    - intros v level rest _ Hsz. pose proof (json_size_pos v). lia.
    - intros [|x xs] level closing rest Hne _ Hsz; [now elim Hne|simpl in Hsz; lia].
    - intros [|[k x] kvs] level closing rest Hne _ Hsz;
        [now elim Hne|simpl in Hsz; lia]. }
  split; [|split].
  - (* one value *)
    intros v level rest Hwf Hsz Hstop.
    destruct v as [|[]|z|q|s|xs|kvs].
    + destruct rest; reflexivity.
    + destruct rest; reflexivity.
    + destruct rest; reflexivity.
    + cbn [json_encode].
      destruct (Z_to_string_head z) as (c & s & E & Hc).
      pose proof (scan_number_int ff z rest Hstop) as Hn.
      rewrite E in Hn |- *. cbn [append]. cbn [append] in Hn.
      rewrite scan_once_number; assumption.
    + cbn [json_encode].
      inversion Hwf as [| | |q' Hq| | |]; subst.
      destruct (float_repr_head q Hq) as (c & s & E & Hc).
      pose proof (scan_number_float ff q rest ff_ok Hq Hstop) as Hn.
      rewrite E in Hn |- *. cbn [append]. cbn [append] in Hn.
      rewrite scan_once_number; assumption.
    + cbn [json_encode]. unfold encode_string. cbn [append scan_once].
      change (Ascii.eqb dquote dquote) with true. cbv iota.
      rewrite append_assoc. cbn [append].
      rewrite scan_string_escape_chars. reflexivity.
    + destruct xs as [|x xs]; [reflexivity|].
      inversion Hwf as [| | | | |xs' Hall|]; subst.
      rewrite json_size_list in Hsz.
      assert (Htext : json_encode ff level (JList (x :: xs)) ++ rest =
                      String "[" (newline_indent (S level) ++
                        (String.concat ("," ++ newline_indent (S level))
                           (map (json_encode ff (S level)) (x :: xs))
                         ++ newline_indent level ++ "]" ++ rest))).
      { cbn [json_encode]. cbn [append]. f_equal.
        rewrite !append_assoc. reflexivity. }
      rewrite Htext. cbn [scan_once].
      change (Ascii.eqb "[" dquote) with false.
      change (Ascii.eqb "[" "{") with false.
      change (Ascii.eqb "[" "[") with true. cbv iota.
      rewrite skip_ws_newline_indent.
      pose proof (IHe (x :: xs) (S level) level rest ltac:(discriminate) Hall
                    ltac:(lia)) as Hscan.
      destruct (elements_head (S level) x xs
                  (newline_indent level ++ "]" ++ rest)
                  (Forall_inv Hall)) as (c & s & E & Hws & Hb).
      rewrite E in Hscan |- *. rewrite (skip_ws_head c s Hws).
      rewrite Hb, Hscan. reflexivity.
    + destruct kvs as [|[k x] kvs]; [reflexivity|].
      inversion Hwf as [| | | | | |kvs' Hnd Hall]; subst.
      rewrite json_size_dict in Hsz.
      assert (Htext : json_encode ff level (JDict ((k, x) :: kvs)) ++ rest =
                      String "{" (newline_indent (S level) ++
                        (String.concat ("," ++ newline_indent (S level))
                           (map (fun kv : string * json =>
                                   let (k, x) := kv in
                                   encode_string k ++ ": "
                                     ++ json_encode ff (S level) x)
                                ((k, x) :: kvs))
                         ++ newline_indent level ++ "}" ++ rest))).
      { cbn [json_encode]. cbn [append]. f_equal.
        rewrite !append_assoc. reflexivity. }
      rewrite Htext. cbn [scan_once].
      change (Ascii.eqb "{" dquote) with false.
      change (Ascii.eqb "{" "{") with true. cbv iota.
      rewrite skip_ws_newline_indent.
      pose proof (IHm ((k, x) :: kvs) (S level) level rest ltac:(discriminate)
                    Hall ltac:(lia)) as Hscan.
      assert (E : exists s,
                 String.concat ("," ++ newline_indent (S level))
                   (map (fun kv : string * json =>
                           let (k, x) := kv in
                           encode_string k ++ ": "
                             ++ json_encode ff (S level) x)
                        ((k, x) :: kvs))
                 ++ newline_indent level ++ "}" ++ rest = String dquote s).
      { destruct kvs as [|kv kvs].
        - simpl. eexists. reflexivity.
        - cbn [map]. rewrite concat_cons2. unfold encode_string at 1.
          cbn [append]. eexists. reflexivity. }
      destruct E as [s E]. rewrite E in Hscan |- *.
      rewrite (skip_ws_head dquote s eq_refl).
      change (Ascii.eqb dquote "}") with false. cbv iota.
      rewrite Hscan, (dict_of_pairs_distinct _ Hnd). reflexivity.
  - (* the elements of a list *)
    intros [|x xs] level closing rest Hne Hall Hsz; [now elim Hne|].
    cbn [elements_size] in Hsz.
    pose proof (Forall_inv Hall) as Hx. pose proof (Forall_inv_tail Hall) as Hxs.
    cbn [scan_elements].
    destruct xs as [|y xs].
    + cbn [map String.concat].
      rewrite (IHv x level (newline_indent closing ++ "]" ++ rest) Hx
                 ltac:(lia) eq_refl).
      rewrite skip_ws_newline_indent. cbn [append skip_ws].
      change (is_ws "]") with false. cbv iota.
      change (Ascii.eqb "]" "]") with true. reflexivity.
    + cbn [map]. rewrite concat_cons2. rewrite !append_assoc.
      cbn [append].
      rewrite (IHv x level (String "," _) Hx ltac:(lia) eq_refl).
      cbn [append skip_ws]. change (is_ws ",") with false. cbv iota.
      change (Ascii.eqb "," "]") with false.
      change (Ascii.eqb "," ",") with true. cbv iota.
      rewrite skip_ws_newline_indent.
      pose proof (IHe (y :: xs) level closing rest ltac:(discriminate) Hxs
                    ltac:(cbn [elements_size] in *; lia)) as Hscan.
      destruct (elements_head level y xs
                  (newline_indent closing ++ "]" ++ rest)
                  (Forall_inv Hxs)) as (c & s & E & Hws & Hb).
      cbn [map append] in E, Hscan |- *.
      rewrite E in Hscan |- *. rewrite (skip_ws_head c s Hws).
      rewrite Hscan. reflexivity.
  - (* the members of a dict *)
    intros [|[k x] kvs] level closing rest Hne Hall Hsz; [now elim Hne|].
    cbn [members_size] in Hsz.
    pose proof (Forall_inv Hall) as Hx. pose proof (Forall_inv_tail Hall) as Hkvs.
    cbn [snd] in Hx.
    assert (Hmember : forall more : string,
               number_stops more = true ->
               scan_members ff (S fuel)
                 (encode_string k ++ ": " ++ json_encode ff level x ++ more)
               = match skip_ws more with
                 | EmptyString => None
                 | String c3 r4 =>
                     if Ascii.eqb c3 "}" then Some ([(k, x)], r4)
                     else if Ascii.eqb c3 "," then
                       match scan_members ff fuel (skip_ws r4) with
                       | Some (pairs, r5) => Some ((k, x) :: pairs, r5)
                       | None => None
                       end
                     else None
                 end).
    { intros more Hmore. unfold encode_string. cbn [append scan_members].
      change (Ascii.eqb dquote dquote) with true. cbv iota.
      rewrite !append_assoc. cbn [append].
      rewrite scan_string_escape_chars.
      cbn [skip_ws]. change (is_ws ":") with false. cbv iota.
      change (Ascii.eqb ":" ":") with true. cbv iota.
      change (skip_ws (String " " (json_encode ff level x ++ more)))
        with (skip_ws (json_encode ff level x ++ more)).
      rewrite (skip_ws_encode level x more Hx).
      rewrite (IHv x level more Hx ltac:(lia) Hmore). reflexivity. }
    destruct kvs as [|kv kvs].
    + cbn [map String.concat]. rewrite !append_assoc.
      rewrite (Hmember (newline_indent closing ++ "}" ++ rest) eq_refl).
      rewrite skip_ws_newline_indent. cbn [append skip_ws].
      change (is_ws "}") with false. cbv iota.
      change (Ascii.eqb "}" "}") with true. reflexivity.
    + cbn [map]. rewrite concat_cons2. rewrite !append_assoc.
      rewrite (Hmember ("," ++ _) eq_refl).
      cbn [append skip_ws]. change (is_ws ",") with false. cbv iota.
      change (Ascii.eqb "," "}") with false.
      change (Ascii.eqb "," ",") with true. cbv iota.
      rewrite skip_ws_newline_indent.
      pose proof (IHm (kv :: kvs) level closing rest ltac:(discriminate) Hkvs
                    ltac:(cbn [members_size] in *; destruct kv; lia)) as Hscan.
      assert (E : exists s,
                 String.concat ("," ++ newline_indent level)
                   (map (fun kv : string * json =>
                           let (k, x) := kv in
                           encode_string k ++ ": " ++ json_encode ff level x)
                        (kv :: kvs))
                 ++ newline_indent closing ++ "}" ++ rest = String dquote s).
      { destruct kv as [k1 x1]. destruct kvs as [|kv2 kvs].
        - simpl. eexists. reflexivity.
        - cbn [map]. rewrite concat_cons2. unfold encode_string at 1.
          cbn [append]. eexists. reflexivity. }
      destruct E as [s E]. cbn [map append] in E, Hscan |- *.
      rewrite E in Hscan |- *.
      rewrite (skip_ws_head dquote s eq_refl).
      rewrite Hscan. reflexivity.
Qed.

End JsonRoundTrip.

(** ** JSON text: decoding what was encoded *)

Lemma json_induction (P : json -> Prop) :
  P JNull ->
  (forall b, P (JBool b)) ->
  (forall z, P (JInt z)) ->
  (forall q, P (JFloat q)) ->
  (forall s, P (JStr s)) ->
  (forall xs, Forall P xs -> P (JList xs)) ->
  (forall kvs, Forall (fun kv => P (snd kv)) kvs -> P (JDict kvs)) ->
  forall v, P v.
Proof.
  intros Hn Hb Hi Hf Hs Hl Hd. fix IH 1. intros [|b|z|q|s|xs|kvs].
  - exact Hn.
  - apply Hb.
  - apply Hi.
  - apply Hf.
  - apply Hs.
  - apply Hl. induction xs as [|x xs IHxs]; constructor; [apply IH|exact IHxs].
  - apply Hd. induction kvs as [|[k x] kvs IHk]; constructor;
      [apply IH|exact IHk].
Qed.

Lemma pyval_induction (P : pyval -> Prop) :
  P VNone ->
  (forall b, P (VBool b)) ->
  (forall z, P (VInt z)) ->
  (forall s, P (VStr s)) ->
  (forall xs, Forall P xs -> P (VList xs)) ->
  (forall kvs, Forall (fun kv => P (snd kv)) kvs -> P (VDict kvs)) ->
  forall v, P v.
Proof.
  intros Hn Hb Hi Hs Hl Hd. fix IH 1. intros [|b|z|s|xs|kvs].
  - exact Hn.
  - apply Hb.
  - apply Hi.
  - apply Hs.
  - apply Hl. induction xs as [|x xs IHxs]; constructor; [apply IH|exact IHxs].
  - apply Hd. induction kvs as [|[k x] kvs IHk]; constructor;
      [apply IH|exact IHk].
Qed.

Section JsonDecode.

Variable ff : float_format.
Hypothesis ff_ok : float_format_ok ff.

Lemma newline_indent_length (level : nat) :
  1 <= String.length (newline_indent level).
Proof. unfold newline_indent. simpl. lia. Qed.

Lemma elements_length (level : nat) (xs : list json) :
  Forall (fun x => json_size x <= String.length (json_encode ff (S level) x)) xs ->
  elements_size xs <=
  S (String.length
       (String.concat ("," ++ newline_indent (S level))
          (map (json_encode ff (S level)) xs))).
Proof.
  induction 1 as [|x xs Hx _ IH]; [simpl; lia|].
  destruct xs as [|y xs].
  - simpl. lia.
  - cbn [map]. cbn [map] in IH. rewrite concat_cons2.
    rewrite !append_length. cbn [elements_size] in *.
    pose proof (newline_indent_length (S level)). simpl String.length at 2.
    lia.
Qed.

Lemma members_length (level : nat) (kvs : list (string * json)) :
  Forall (fun kv : string * json =>
            json_size (snd kv) <= String.length (json_encode ff (S level) (snd kv)))
    kvs ->
  members_size kvs <=
  S (String.length
       (String.concat ("," ++ newline_indent (S level))
          (map (fun kv : string * json =>
                  let (k, x) := kv in
                  encode_string k ++ ": " ++ json_encode ff (S level) x) kvs))).
Proof.
  induction 1 as [|[k x] kvs Hx _ IH]; [simpl; lia|].
  cbn [snd] in Hx.
  destruct kvs as [|[k1 x1] kvs].
  - cbn [map String.concat members_size]. rewrite !append_length. lia.
  - cbn [map]. cbn [map] in IH. rewrite concat_cons2.
    rewrite !append_length. cbn [members_size] in *.
    change (String.length ": ") with 2. change (String.length ",") with 1.
    lia.
Qed.

(** The text of a value has at least as many characters as the scanner
    makes calls to read it. *)
Lemma json_size_le_length (v : json) :
  json_wf ff v ->
  forall level, json_size v <= String.length (json_encode ff level v).
Proof.
  induction v as [|b|z|q|s|xs IH|kvs IH] using json_induction;
    intros Hwf level.
  - simpl. lia.
  - destruct b; simpl; lia.
  - destruct (Z_to_string_head z) as (c & s & E & _).
    cbn [json_encode json_size]. rewrite E. simpl. lia.
  - inversion Hwf as [| | |q' Hq| | |]; subst.
    destruct (float_repr_head ff ff_ok q Hq) as (c & s & E & _).
    cbn [json_encode json_size]. rewrite E. simpl. lia.
  - simpl. lia.
  - inversion Hwf as [| | | | |xs' Hall|]; subst.
    destruct xs as [|x xs]; [simpl; lia|].
    rewrite json_size_list.
    assert (Hlen : Forall (fun x => json_size x <=
                             String.length (json_encode ff (S level) x))
                     (x :: xs)).
    { rewrite Forall_forall in IH, Hall |- *.
      intros y Hy. apply IH; auto. }
    pose proof (elements_length level (x :: xs) Hlen) as He.
    cbn [json_encode]. rewrite !append_length.
    pose proof (newline_indent_length (S level)).
    pose proof (newline_indent_length level).
    simpl String.length at 1. lia.
  - inversion Hwf as [| | | | | |kvs' Hnd Hall]; subst.
    destruct kvs as [|kv kvs]; [simpl; lia|].
    rewrite json_size_dict.
    assert (Hlen : Forall (fun kv : string * json =>
                             json_size (snd kv) <=
                             String.length (json_encode ff (S level) (snd kv)))
                     (kv :: kvs)).
    { rewrite Forall_forall in IH, Hall |- *.
      intros y Hy. apply IH; auto. }
    pose proof (members_length level (kv :: kvs) Hlen) as He.
    cbn [json_encode]. rewrite !append_length.
    pose proof (newline_indent_length (S level)).
    pose proof (newline_indent_length level).
    simpl String.length at 1. lia.
Qed.

(** Decoding the text [json.dumps] produces for a value gives the value
    back. *)
Lemma json_decode_dumps (v : json) :
  json_wf ff v -> json_decode ff (json_dumps ff v) = Ret v.
Proof.
  intros Hwf. unfold json_decode, json_dumps.
  pose proof (skip_ws_encode ff ff_ok 0 v "" Hwf) as Hskip.
  rewrite append_nil_r in Hskip. rewrite Hskip.
  pose proof (json_size_le_length v Hwf 0) as Hsz.
  destruct (scan_round_trip ff ff_ok (S (String.length (json_encode ff 0 v))))
    as [Hv _].
  specialize (Hv v 0 "" Hwf ltac:(lia) eq_refl).
  rewrite append_nil_r in Hv. rewrite Hv. reflexivity.
Qed.

End JsonDecode.

(** ** The JSON report *)

Lemma status_of_value_value (s : TestStatus) :
  status_of_value (status_value s) = Some s.
Proof. destruct s; reflexivity. Qed.

(** A value without floats is read back from its JSON value. *)
Lemma pyval_of_json_of_pyval (v : pyval) :
  pyval_of_json (json_of_pyval v) = Some v.
Proof.
  induction v as [|b|z|s|xs IH|kvs IH] using pyval_induction;
    try reflexivity.
  - cbn [json_of_pyval pyval_of_json].
    induction IH as [|x xs Hx _ IHxs]; [reflexivity|].
    cbn [map]. rewrite Hx.
    destruct ((fix all (l : list json) : option (list pyval) :=
                 match l with
                 | [] => Some []
                 | x :: l' =>
                     match pyval_of_json x, all l' with
                     | Some a, Some b => Some (a :: b)
                     | _, _ => None
                     end
                 end) (map json_of_pyval xs)) as [ys|];
      inversion IHxs; subst. reflexivity.
  - cbn [json_of_pyval pyval_of_json].
    induction IH as [|[k x] kvs Hx _ IHk]; [reflexivity|].
    cbn [map snd] in *. rewrite Hx.
    destruct ((fix all (l : list (string * json))
                 : option (list (string * pyval)) :=
                 match l with
                 | [] => Some []
                 | (k, x) :: l' =>
                     match pyval_of_json x, all l' with
                     | Some a, Some b => Some ((k, a) :: b)
                     | _, _ => None
                     end
                 end) (map (fun kv : string * pyval =>
                              let (k, x) := kv in (k, json_of_pyval x)) kvs))
      as [ys|]; inversion IHk; subst. reflexivity.
Qed.

Lemma json_of_pyval_keys (kvs : list (string * pyval)) :
  map fst (map (fun kv : string * pyval =>
                  let (k, x) := kv in (k, json_of_pyval x)) kvs)
  = map fst kvs.
Proof.
  induction kvs as [|[k x] kvs IH]; simpl; [reflexivity|]. now rewrite IH.
Qed.

(** A value Python can hold is a JSON value Python can hold. *)
Lemma json_of_pyval_wf (ff : float_format) (v : pyval) :
  py_wf v -> json_wf ff (json_of_pyval v).
Proof.
  induction v as [|b|z|s|xs IH|kvs IH] using pyval_induction; intros Hwf.
  - apply json_wf_null.
  - apply json_wf_bool.
  - apply json_wf_int.
  - apply json_wf_str.
  - inversion Hwf as [| | | |xs' Hall|]; subst.
    cbn [json_of_pyval]. apply json_wf_list.
    rewrite Forall_forall in *. intros y Hy.
    apply in_map_iff in Hy. destruct Hy as (x & <- & Hx). auto.
  - inversion Hwf as [| | | | |kvs' Hnd Hall]; subst.
    cbn [json_of_pyval]. apply json_wf_dict.
    + now rewrite json_of_pyval_keys.
    + rewrite Forall_forall in *. intros y Hy.
      apply in_map_iff in Hy. destruct Hy as ([k x] & <- & Hx).
      cbn [snd]. apply (IH (k, x) Hx). apply (Hall (k, x) Hx).
Qed.

Lemma result_record_wf (ff : float_format) (r : TestResult) :
  result_wf ff r -> json_wf ff (result_record r).
Proof.
  intros (Hn & Hd & Hf). unfold result_record. apply json_wf_dict.
  - cbn [map fst]. repeat constructor; simpl; intuition discriminate.
  - repeat apply Forall_cons; try apply Forall_nil; cbn [snd].
    + now apply json_of_pyval_wf.
    + apply json_wf_str.
    + now apply json_wf_float.
    + apply json_wf_str.
    + now apply json_of_pyval_wf.
    + apply json_wf_str.
Qed.

(** A result record reads back as the result, its duration in lowest
    terms. *)
Lemma read_result_record (r : TestResult) :
  read_result (result_record r) =
  Some (mkTestResult (name r) (status r) (Qred (duration r)) (message r)
          (details r) (timestamp r)).
Proof.
  unfold read_result, result_record. cbn [json_get String.eqb Ascii.eqb Bool.eqb].
  rewrite !pyval_of_json_of_pyval, status_of_value_value. reflexivity.
Qed.

Lemma report_wf (ff : float_format) (generated : string)
    (results : list TestResult) (summary : json) :
  Forall (result_wf ff) results ->
  json_wf ff summary ->
  json_wf ff (JDict [("generated", JStr generated); ("summary", summary);
                     ("results", JList (map result_record results))]).
Proof.
  intros Hr Hs. apply json_wf_dict.
  - cbn [map fst]. repeat constructor; simpl; intuition discriminate.
  - repeat apply Forall_cons; try apply Forall_nil; cbn [snd].
    + apply json_wf_str.
    + exact Hs.
    + apply json_wf_list.
      rewrite Forall_forall in *. intros y Hy.
      apply in_map_iff in Hy. destruct Hy as (r & <- & Hin).
      apply result_record_wf. auto.
Qed.

(** The text of a report round-trips. *)
Lemma report_text_round_trips (ff : float_format) (generated : string)
    (results : list TestResult) (summary : json) :
  float_format_ok ff ->
  Forall (result_wf ff) results ->
  json_wf ff summary ->
  report_round_trips ff
    (json_dumps ff
       (JDict [("generated", JStr generated); ("summary", summary);
               ("results", JList (map result_record results))]))
    results summary.
Proof.
  intros Hff Hr Hs.
  exists (JDict [("generated", JStr generated); ("summary", summary);
                 ("results", JList (map result_record results))]),
         (map result_record results).
  split; [apply json_decode_dumps; [exact Hff | now apply report_wf]|].
  split; [reflexivity|]. split; [reflexivity|].
  split; [apply length_map|].
  intros i r Hi.
  exists (result_record r),
         (mkTestResult (name r) (status r) (Qred (duration r)) (message r)
            (details r) (timestamp r)).
  split; [now apply map_nth_error|].
  split; [apply read_result_record|].
  cbn [name status duration message details timestamp].
  repeat split; try reflexivity. apply Qred_correct.
Qed.

(** C8. For every list of results and every summary that Python can hold
    (dicts with distinct keys, floats of the float format), and every
    float format that writes a float as a number literal which reads back
    as the same float, the text [to_json] returns decodes to a report whose
    summary is the one given and whose results read back, in order, with
    the same name, status tag, message, details and timestamp and an equal
    duration; without an output path [to_json] always returns. *)
Theorem json_report_round_trip :
  forall (ff : float_format) (w : world)
         (write_text : string -> string -> outcome unit)
         (results : list TestResult) (summary : json) (t : nat),
    float_format_ok ff ->
    Forall (result_wf ff) results ->
    json_wf ff summary ->
    (exists text : string,
        to_json w ff write_text results summary None t = (Ret text, S t)) /\
    (forall (output_path : option string) (text : string) (t' : nat),
        to_json w ff write_text results summary output_path t = (Ret text, t') ->
        report_round_trips ff text results summary).
Proof.
  intros ff w write_text results summary t Hff Hr Hs. split.
  - eexists. reflexivity.
  - intros output_path text t'.
    unfold to_json, bind, datetime_now_isoformat, lift, ret.
    destruct output_path as [p|].
    + destruct (write_text p _) as [[]|e]; intros H; inversion H; subst.
      now apply report_text_round_trips.
    + intros H; inversion H; subst. now apply report_text_round_trips.
Qed.

(** The float format for whole seconds keeps what Python guarantees. *)
Lemma whole_seconds_ok : float_format_ok whole_seconds.
Proof.
  assert (Hint : forall n : Z,
             match_integer (Z_to_string n ++ ".0") = Some (Z_to_string n, ".0")).
  { intros n.
    exact (match_integer_app (Z_to_string n) ".0" (Z_to_string n) ""
             eq_refl (match_integer_Z n)). }
  split; intros [n d] [Hd _]; cbn [Qden Qnum] in *; subst d;
    cbn [whole_seconds float_repr float_of_string Qnum].
  - unfold float_literal. rewrite Hint. reflexivity.
  - rewrite Hint. cbn [String.eqb Ascii.eqb Bool.eqb].
    rewrite int_of_string_Z, DecimalZ.of_to. reflexivity.
Qed.

Lemma plates_results_wf : Forall (result_wf whole_seconds) (results plates_runner).
Proof.
  let rs := eval vm_compute in (results plates_runner) in
  change (results plates_runner) with rs.
  repeat first
    [ apply Forall_cons | apply Forall_nil | split | apply py_wf_str
    | apply py_wf_dict | apply py_wf_int | apply py_wf_bool | apply py_wf_none
    | apply NoDup_cons | apply NoDup_nil ];
    cbn [map fst snd In];
    try (intuition discriminate); try reflexivity;
    try (vm_compute; discriminate).
Qed.

Lemma plates_summary_wf : json_wf whole_seconds (summary_dict plates_runner).
Proof.
  let s := eval vm_compute in (summary_dict plates_runner) in
  change (summary_dict plates_runner) with s.
  apply json_wf_dict.
  - cbn [map fst]. repeat constructor; simpl; intuition discriminate.
  - repeat first [ apply Forall_cons | apply Forall_nil | apply json_wf_int
                 | apply json_wf_float ];
      split; try reflexivity; vm_compute; discriminate.
Qed.

Lemma json_report_round_trip_witness :
  (exists text : string,
      to_json studio whole_seconds (fun _ _ => Ret tt) (results plates_runner)
        (summary_dict plates_runner) None 8 = (Ret text, 9)) /\
  (forall (output_path : option string) (text : string) (t' : nat),
      to_json studio whole_seconds (fun _ _ => Ret tt) (results plates_runner)
        (summary_dict plates_runner) output_path 8 = (Ret text, t') ->
      report_round_trips whole_seconds text (results plates_runner)
        (summary_dict plates_runner)).
Proof.
  exact (json_report_round_trip whole_seconds studio (fun _ _ => Ret tt)
           (results plates_runner) (summary_dict plates_runner) 8
           whole_seconds_ok plates_results_wf plates_summary_wf).
Defined.

Example empty_report_text :
  to_json studio whole_seconds (fun _ _ => Ret tt) [] (JDict []) None 0 =
  (Ret ("{" ++ newline
          ++ "  " ++ quoted "generated" ++ ": " ++ quoted "2024-05-01T09:00:0"
          ++ "," ++ newline
          ++ "  " ++ quoted "summary" ++ ": {}," ++ newline
          ++ "  " ++ quoted "results" ++ ": []" ++ newline
          ++ "}"), 1).
Proof. vm_compute. reflexivity. Qed.

Example plates_report_decodes :
  exists text report,
    to_json studio whole_seconds (fun _ _ => Ret tt) (results plates_runner)
      (summary_dict plates_runner) None 8 = (Ret text, 9) /\
    json_decode whole_seconds text = Ret report /\
    json_get "summary" report =
      Some (JDict [("total", JInt 2); ("passed", JInt 2); ("failed", JInt 0);
                   ("errors", JInt 0); ("skipped", JInt 0);
                   ("duration", JFloat 7); ("success_rate", JFloat 100)]).
Proof.
  eexists; eexists. split; [reflexivity|]. vm_compute.
  split; reflexivity.
Qed.
